(** * The request state-transition engine of the process maker

    A shallow embedding of [app/domain/model/process_maker/request.py] and
    [app/domain/service/process_maker/request_service.py].  Entities are
    records, nullable columns are options, the collaborators injected into
    [RequestService.__init__] are the fields of a record, and every method
    that raises or writes is a computation over the state it mutates. *)

From stdpp Require Import base numbers strings list gmap.

Local Open Scope Z_scope.

(** ** Exceptions and effects *)

(** The exceptions the service can end with.  [RecordNotFound] and
    [DontHaveRight] are raised by the service itself; [InvalidInput] is what
    a failed [validate()] raises; [AttributeError] is Python's own error for
    an attribute read on [None], [IndexError] for a list index out of
    range. *)
Inductive Error : Type :=
  | RecordNotFound
  | DontHaveRight (user_id : Z)
  | InvalidInput
  | AttributeError
  | IndexError.

Inductive Result (A : Type) : Type :=
  | Ok (a : A)
  | Err (e : Error).
Arguments Ok {A} a.
Arguments Err {A} e.

Definition is_ok {A} (r : Result A) : bool :=
  match r with Ok _ => true | Err _ => false end.

Global Instance Error_eq_dec : EqDecision Error.
Proof. solve_decision. Defined.

(** A method that mutates state of type [S] and may raise: the state
    reached is returned in both cases, since an exception does not undo
    the writes made before it. *)
Definition M (S A : Type) : Type := S -> S * Result A.

Definition ret {S A} (a : A) : M S A := fun s => (s, Ok a).
Definition raise {S A} (e : Error) : M S A := fun s => (s, Err e).
Definition bind {S A B} (m : M S A) (k : A -> M S B) : M S B :=
  fun s => match m s with
           | (s', Ok a) => k a s'
           | (s', Err e) => (s', Err e)
           end.
Definition lift {S A} (r : Result A) : M S A := fun s => (s, r).
Definition get {S} : M S S := fun s => (s, Ok s).
Definition put {S} (s : S) : M S unit := fun _ => (s, Ok tt).

Declare Scope eff_scope.
Delimit Scope eff_scope with eff.
Notation "'do' x <- m ; k" := (bind m (fun x => k))
  (at level 10, x name, m at level 100, k at level 200) : eff_scope.
Notation "'do_' m ; k" := (bind m (fun _ => k))
  (at level 10, m at level 100, k at level 200) : eff_scope.
Local Open Scope eff_scope.

(** ** The process graph (read-only definitions) *)

(** Modelled from the spec: the models of Group, Action, Route, State,
    Process and User ([app.domain.model]), whose modules are absent.  The
    fields are those the service reads ([group.id], [action.id],
    [action.target], [route.id], [route.next_state_id], [route.action],
    [state.id], [state.route], [process.id], [user.id]); [State.process_id]
    is the spec's "State ... belongs to exactly one Process". *)

Module Group.
Record t : Type := mk { id : Z }.
End Group.

Module Action.
Record t : Type := mk { id : Z; name : string; target : list Group.t }.
End Action.

Module Route.
Record t : Type := mk { id : Z; next_state_id : Z; action : list Action.t }.
End Route.

Module State.
Record t : Type := mk { id : Z; process_id : Z; route : list Route.t }.
End State.

Module Process.
Record t : Type := mk { id : Z }.
End Process.

Module User.
Record t : Type := mk { id : Z }.
End User.

(** ** The request and its attached records ([request.py]) *)

Module DataType.
Definition json : string := "json".
Definition text : string := "text".
End DataType.

Module NoteType.
Definition user_note : string := "user_note".
Definition system_note : string := "system_note".
End NoteType.

Module StakeholderType.
Definition user : string := "user".
Definition group : string := "group".
End StakeholderType.

Module RequestAction.
(** [route_to_next_state] is a plain class attribute ([None] by default),
      not a column: it lives on the in-memory object only. *)
Record t : Type := mk {
    id : option Z;
    request_id : option Z;
    action_id : Z;
    user_id : Z;
    route_id : Z;
    status : option string;
    route_to_next_state : option Route.t
  }.

Definition set_status (s : string) (ra : t) : t :=
    mk (id ra) (request_id ra) (action_id ra) (user_id ra) (route_id ra)
       (Some s) (route_to_next_state ra).

(** What is stored of a RequestAction: its columns, with the column
      default ['active'] for a status never set. *)
Definition row (ra : t) : t :=
    mk (id ra) (request_id ra) (action_id ra) (user_id ra) (route_id ra)
       (Some (default "active"%string (status ra))) None.
End RequestAction.

Module Request.
Record t : Type := mk {
    id : option Z;
    title : string;
    user_id : Z;
    process_id : Z;
    current_state_id : option Z;
    status : option string;
    entity_model : string;
    entity_id : Z;
    request_action : list RequestAction.t
  }.

Definition set_id (i : Z) (r : t) : t :=
    mk (Some i) (title r) (user_id r) (process_id r) (current_state_id r)
       (status r) (entity_model r) (entity_id r) (request_action r).

Definition set_current_state_id (s : Z) (r : t) : t :=
    mk (id r) (title r) (user_id r) (process_id r) (Some s)
       (status r) (entity_model r) (entity_id r) (request_action r).

Definition set_request_action (l : list RequestAction.t) (r : t) : t :=
    mk (id r) (title r) (user_id r) (process_id r) (current_state_id r)
       (status r) (entity_model r) (entity_id r) l.

(** What is stored of a Request: its columns (status defaults to
      ['active']) and the rows of its history. *)
Definition row (r : t) : t :=
    mk (id r) (title r) (user_id r) (process_id r) (current_state_id r)
       (Some (default "active"%string (status r))) (entity_model r)
       (entity_id r) (map RequestAction.row (request_action r)).
End Request.

(** The payload handed to [add_request_data] is a dict; the value column
    holds its JSON text when the data type is ['json'] and the payload as
    it came otherwise. *)
Definition Payload : Type := list (string * string).

Inductive DataValue : Type :=
  | Dumped (text : string)
  | Raw (value : Payload).

Module RequestData.
Record t : Type := mk {
    id : option Z;
    request_id : option Z;
    data_type : string;
    status : option string;
    name : string;
    value : DataValue
  }.
Definition set_id (i : Z) (d : t) : t :=
    mk (Some i) (request_id d) (data_type d) (status d) (name d) (value d).
End RequestData.

Module RequestNote.
Record t : Type := mk {
    id : option Z;
    user_id : Z;
    request_id : option Z;
    note_type : string;
    status : option string;
    note : string
  }.
Definition set_id (i : Z) (n : t) : t :=
    mk (Some i) (user_id n) (request_id n) (note_type n)
       (Some (default "active"%string (status n))) (note n).
End RequestNote.

Module RequestStakeholder.
Record t : Type := mk {
    id : option Z;
    request_id : option Z;
    stakeholder_id : Z;
    stakeholder_type : string
  }.
Definition set_id (i : Z) (s : t) : t :=
    mk (Some i) (request_id s) (stakeholder_id s) (stakeholder_type s).
End RequestStakeholder.

(** ** The collaborators of [RequestService] *)

(** The services and validators handed to [RequestService.__init__], as
    far as the engine calls them.  [current_state] is the ORM relationship
    [Request.current_state]: the State row whose key is
    [current_state_id].  The [validate_*] fields decide whether
    [validate()] passes on the entity; [json_dumps] is [json.dumps]. *)
Record RequestService : Type := {
  user_service_find_by_id : Z -> Result User.t;
  group_service_is_user_in_group : Z -> Z -> bool;
  process_service_find_one : Z -> Result Process.t;
  process_service_find_start_point : Z -> Result State.t;
  action_service_find_one : Z -> Result Action.t;
  current_state : Z -> option State.t;
  validate_request_data : RequestData.t -> bool;
  validate_request_note : RequestNote.t -> bool;
  validate_request_stakeholder : RequestStakeholder.t -> bool;
  validate_request_action : RequestAction.t -> bool;
  json_dumps : Payload -> string
}.

(** [UserService.find_by_id] ([usecase/user.py]): the id is validated, the
    repository is asked, and a missing user raises the record-not-found
    error.  [validate_id] and the user repository are its collaborators. *)
Definition find_by_id (validate_id : Z -> Result unit)
    (user_repo_find : Z -> option User.t) (user_id : Z) : Result User.t :=
  match validate_id user_id with
  | Err e => Err e
  | Ok _ =>
      match user_repo_find user_id with
      | Some user => Ok user
      | None => Err RecordNotFound
      end
  end.

(** Modelled from the spec: [validate()] of the entity base classes [Base]
    and [Serializable], whose modules are absent.  It "validates required
    fields are well-formed" and a "validation failure fails with
    InvalidInput"; what is well formed is left to the [validate_*] fields
    of the service. *)
Definition validate {S A} (check : A -> bool) (entity : A) : M S unit :=
  if check entity then ret tt else raise InvalidInput.

Section Authorization.
Variable self : RequestService.

(** [for group_id in group_ids: if is_user_in_group(...): return True] *)
Fixpoint any_group (user_id : Z) (group_ids : list Z) : bool :=
  match group_ids with
  | [] => false
  | group_id :: rest =>
      if group_service_is_user_in_group self group_id user_id then true
      else any_group user_id rest
  end.

Definition should_user_commit_action (user_id : Z) (action : Action.t) : bool :=
  let group_ids := map Group.id (Action.target action) in
  any_group user_id group_ids.

End Authorization.

(** ** Persistence *)

(** The tables behind the five repositories, as one caller at a time sees
    them.  A stored Request carries the rows of its history, the way the
    [request_action] relationship reads them back. *)
Record Store : Type := {
  request_table : gmap Z Request.t;
  request_data_table : list RequestData.t;
  request_note_table : list RequestNote.t;
  request_stakeholder_table : list RequestStakeholder.t
}.

Definition empty_store : Store :=
  {| request_table := ∅; request_data_table := [];
     request_note_table := []; request_stakeholder_table := [] |}.

Definition with_request_table (t : gmap Z Request.t) (st : Store) : Store :=
  {| request_table := t;
     request_data_table := request_data_table st;
     request_note_table := request_note_table st;
     request_stakeholder_table := request_stakeholder_table st |}.

(** Modelled from the spec: [RequestRepository.create], whose module
    [app.infrastructure.persistence.process_maker.request] is absent
    ("Construct and persist the Request").  The entity gets a key not yet
    in the table (never 0), the column defaults are filled in, and the row
    is visible from then on. *)
Definition request_repo_create (request : Request.t) : M Store Request.t :=
  fun st =>
    let key := fresh ({[0]} ∪ dom (request_table st)) in
    let request := Request.row (Request.set_id key request) in
    (with_request_table (<[key := request]> (request_table st)) st, Ok request).

(** Modelled from the spec: [RequestRepository.update], of the same absent
    module ("Persist the updated Request (including its new history entry
    and new current state) as one atomic update"; "the original
    single-threaded-assumption update").  The call receives the entity and
    nothing else, and [Request] has no version column: the row under the
    entity's key is replaced by the entity's columns. *)
Definition request_repo_update (request : Request.t) : M Store Request.t :=
  fun st =>
    match Request.id request with
    | Some key =>
        (with_request_table (<[key := Request.row request]> (request_table st)) st,
         Ok request)
    | None => (st, Ok request)
    end.

(** Modelled from the spec: [RequestRepository.find_one], of the same absent
    module; [None] for a key with no row. *)
Definition request_repo_find_one (request_id : Z) (st : Store) : option Request.t :=
  request_table st !! request_id.

Definition with_request_data_table (t : list RequestData.t) (st : Store) : Store :=
  {| request_table := request_table st;
     request_data_table := t;
     request_note_table := request_note_table st;
     request_stakeholder_table := request_stakeholder_table st |}.

Definition with_request_note_table (t : list RequestNote.t) (st : Store) : Store :=
  {| request_table := request_table st;
     request_data_table := request_data_table st;
     request_note_table := t;
     request_stakeholder_table := request_stakeholder_table st |}.

Definition with_request_stakeholder_table (t : list RequestStakeholder.t)
    (st : Store) : Store :=
  {| request_table := request_table st;
     request_data_table := request_data_table st;
     request_note_table := request_note_table st;
     request_stakeholder_table := t |}.

(** Modelled from the spec: [create] of [RequestDataRepository],
    [RequestNoteRepository] and [RequestStakeholderRepository], whose
    modules are absent; the new row gets the next key and is appended to
    its table. *)
Definition request_data_repo_create (d : RequestData.t) : M Store RequestData.t :=
  fun st =>
    let d := RequestData.set_id (Z.of_nat (length (request_data_table st)) + 1) d in
    (with_request_data_table (request_data_table st ++ [d]) st, Ok d).

Definition request_note_repo_create (n : RequestNote.t) : M Store RequestNote.t :=
  fun st =>
    let n := RequestNote.set_id (Z.of_nat (length (request_note_table st)) + 1) n in
    (with_request_note_table (request_note_table st ++ [n]) st, Ok n).

Definition request_stakeholder_repo_create (s : RequestStakeholder.t)
  : M Store RequestStakeholder.t :=
  fun st =>
    let s := RequestStakeholder.set_id
               (Z.of_nat (length (request_stakeholder_table st)) + 1) s in
    (with_request_stakeholder_table (request_stakeholder_table st ++ [s]) st, Ok s).

(** ** [RequestService] *)

Section Service.
Variable self : RequestService.

Definition add_request_data (request : Request.t) (value : Payload)
    (name : string) (data_type : string) : M Store Request.t :=
  let request_data :=
    RequestData.mk None (Request.id request) data_type (Some "active"%string) name
      (if decide (data_type = DataType.json)
       then Dumped (json_dumps self value) else Raw value) in
  do_ validate (validate_request_data self) request_data;
  do_ request_data_repo_create request_data;
  ret request.

Definition add_request_note (request : Request.t) (note : string)
    (user_id : Z) (note_type : string) : M Store Request.t :=
  let request_note :=
    RequestNote.mk None user_id (Request.id request) note_type None note in
  do_ validate (validate_request_note self) request_note;
  do_ request_note_repo_create request_note;
  ret request.

Definition add_request_stakeholder (request : Request.t) (stakeholder_id : Z)
    (stakeholder_type : string) : M Store Request.t :=
  let request_stakeholder :=
    RequestStakeholder.mk None (Request.id request) stakeholder_id stakeholder_type in
  do_ validate (validate_request_stakeholder self) request_stakeholder;
  do_ request_stakeholder_repo_create request_stakeholder;
  ret request.

(** [for stakeholder_id in stakeholders: self.add_request_stakeholder(...)] *)
Fixpoint add_stakeholders (request : Request.t) (stakeholders : list Z)
  : M Store unit :=
  match stakeholders with
  | [] => ret tt
  | stakeholder_id :: rest =>
      do_ add_request_stakeholder request stakeholder_id StakeholderType.user;
      add_stakeholders request rest
  end.

Definition create_request (process_id user_id : Z) (title : string)
    (content : Payload) (note : string) (stakeholders : list Z)
    (entity_model : string) (entity_id : Z) : M Store Request.t :=
  do process <- lift (process_service_find_one self process_id);
  do user <- lift (user_service_find_by_id self user_id);
  do state <- lift (process_service_find_start_point self (Process.id process));
  let request :=
    Request.mk None title (User.id user) (Process.id process) None None
      entity_model entity_id [] in
  do request <- request_repo_create request;
  do_ add_request_data request content entity_model DataType.json;
  do_ add_request_note request note user_id NoteType.user_note;
  do_ add_stakeholders request stakeholders;
  let request := Request.set_current_state_id (State.id state) request in
  request_repo_update request.

Definition find_one_request (request_id : Z) (user_id : Z) : M Store Request.t :=
  fun st =>
    match request_repo_find_one request_id st with
    | Some request => (st, Ok request)
    | None => (st, Err RecordNotFound)
    end.

(** [Request.get_route]: [self.current_state.route]. *)
Definition get_route (request : Request.t) : Result (list Route.t) :=
  match Request.current_state_id request with
  | None => Err AttributeError
  | Some state_id =>
      match current_state self state_id with
      | None => Err AttributeError
      | Some state => Ok (State.route state)
      end
  end.

(** [for route in routes: actions.extend(route.action)] *)
Fixpoint extend_actions (routes : list Route.t) (actions : list Action.t)
  : list Action.t :=
  match routes with
  | [] => actions
  | route :: rest => extend_actions rest (actions ++ Route.action route)
  end.

(** [for i in range(len(actions)): actions[i] = find_one(actions[i].id)] *)
Fixpoint resolve_actions (indices : list nat) (actions : list Action.t)
  : Result (list Action.t) :=
  match indices with
  | [] => Ok actions
  | i :: rest =>
      match actions !! i with
      | None => Err IndexError
      | Some stale =>
          match action_service_find_one self (Action.id stale) with
          | Ok action => resolve_actions rest (<[i := action]> actions)
          | Err e => Err e
          end
      end
  end.

Definition find_request_allowed_action (request_id : Z) (user_id : Z)
  : M Store (list Action.t) :=
  do request <- find_one_request request_id user_id;
  do routes <- lift (get_route request);
  let actions := extend_actions routes [] in
  lift (resolve_actions (seq 0 (length actions)) actions).

Definition find_request_allowed_action_for_specific_user
    (request_id user_id specific_user_id : Z) : M Store (list Action.t) :=
  do actions <- find_request_allowed_action request_id user_id;
  do specific_user <- lift (user_service_find_by_id self specific_user_id);
  ret (List.filter (should_user_commit_action self (User.id specific_user)) actions).

(** The inner loop of [create_request_action] over one route's actions;
    the accumulator is the pair [(actions, turning_route)]. *)
Fixpoint scan_actions (committed_id : Z) (route : Route.t) (acts : list Action.t)
    (acc : list Action.t * option Route.t) : list Action.t * option Route.t :=
  match acts with
  | [] => acc
  | act :: rest =>
      if Action.id act =? committed_id
      then scan_actions committed_id route rest (fst acc ++ [act], Some route)
      else scan_actions committed_id route rest acc
  end.

Fixpoint scan_routes (committed_id : Z) (routes : list Route.t)
    (acc : list Action.t * option Route.t) : list Action.t * option Route.t :=
  match routes with
  | [] => acc
  | route :: rest =>
      scan_routes committed_id rest
        (scan_actions committed_id route (Route.action route) acc)
  end.

(** The state of this computation is the request object handed in, which
    the method mutates ([request.request_action.append]). *)
Definition create_request_action (user : User.t) (committed_action : Action.t)
  : M Request.t RequestAction.t :=
  do request <- get;
  do routes <- lift (get_route request);
  let found := scan_routes (Action.id committed_action) routes ([], None) in
  let actions := fst found in
  let turning_route := snd found in
  let allowed_actions :=
    List.filter (should_user_commit_action self (User.id user)) actions in
  match allowed_actions with
  | [] => raise (DontHaveRight (User.id user))
  | _ :: _ =>
      match turning_route with
      | None => raise AttributeError
      | Some turning_route =>
          let request_action :=
            RequestAction.mk None (Request.id request) (Action.id committed_action)
              (User.id user) (Route.id turning_route) None (Some turning_route) in
          do_ validate (validate_request_action self) request_action;
          do_ put (Request.set_request_action
                     (Request.request_action request ++ [request_action]) request);
          ret request_action
      end
  end.

(** [for request_action in request.request_action: request_action.status = 'done'].
    The loop variable has the name of the entry just created, so the
    second component is what [request_action] is bound to after the loop:
    the last entry visited, or the binding before the loop when the list
    is empty. *)
Fixpoint mark_done (history : list RequestAction.t) (request_action : RequestAction.t)
  : list RequestAction.t * RequestAction.t :=
  match history with
  | [] => ([], request_action)
  | entry :: rest =>
      let entry := RequestAction.set_status "done" entry in
      let marked := mark_done rest entry in
      (entry :: fst marked, snd marked)
  end.

Definition user_commit_action (request_id user_id action_id : Z)
  : M Store Request.t :=
  do request <- find_one_request request_id 0;
  do user <- lift (user_service_find_by_id self user_id);
  do action <- lift (action_service_find_one self action_id);
  match create_request_action user action request with
  | (_, Err e) => raise e
  | (request, Ok request_action) =>
      let marked := mark_done (Request.request_action request) request_action in
      let request := Request.set_request_action (fst marked) request in
      let request_action := snd marked in
      match RequestAction.route_to_next_state request_action with
      | None => raise AttributeError
      | Some route =>
          let request :=
            Request.set_current_state_id (Route.next_state_id route) request in
          request_repo_update request
      end
  end.

Definition find_request_actions (request_id : Z) (user_id : Z)
  : M Store (list RequestAction.t) :=
  do request <- find_one_request request_id user_id;
  ret (Request.request_action request).

End Service.

(** * Specification vocabulary *)

(** A route gates the action id [committed_id]. *)
Definition gates (committed_id : Z) (route : Route.t) : bool :=
  existsb (fun act => Action.id act =? committed_id) (Route.action route).

(** The gated actions with id [committed_id] over all routes, in order. *)
Definition gated (committed_id : Z) (routes : list Route.t) : list Action.t :=
  flat_map
    (fun route => List.filter (fun act => Action.id act =? committed_id)
                    (Route.action route))
    routes.

(** The history entry a commit records. *)
Definition entry_of (request : Request.t) (user : User.t) (action : Action.t)
    (route : Route.t) : RequestAction.t :=
  RequestAction.mk None (Request.id request) (Action.id action) (User.id user)
    (Route.id route) None (Some route).

(** An entry after [request_action.status = 'done']. *)
Definition closed (ra : RequestAction.t) : RequestAction.t :=
  RequestAction.set_status "done" ra.

(** The request a successful commit hands to the repository. *)
Definition committed (request : Request.t) (user : User.t) (action : Action.t)
    (route : Route.t) : Request.t :=
  Request.set_current_state_id (Route.next_state_id route)
    (Request.set_request_action
       (map closed (Request.request_action request ++ [entry_of request user action route]))
       request).

(** Resolve every element in order; the first failure is the outcome. *)
Fixpoint traverse {A B} (f : A -> Result B) (l : list A) : Result (list B) :=
  match l with
  | [] => Ok []
  | a :: rest =>
      match f a with
      | Err e => Err e
      | Ok b =>
          match traverse f rest with
          | Err e => Err e
          | Ok bs => Ok (b :: bs)
          end
      end
  end.

(** The query as the specification words it: the gated actions of all
    routes flattened into one list, each re-resolved by its id. *)
Definition allowed_actions_spec (self : RequestService) (routes : list Route.t)
  : Result (list Action.t) :=
  traverse (fun stale => action_service_find_one self (Action.id stale))
    (concat (map Route.action routes)).

(** The three lookups [create_request] starts with, in its order. *)
Definition resolve_creation (self : RequestService) (process_id user_id : Z)
  : Result (Process.t * User.t * State.t) :=
  match process_service_find_one self process_id with
  | Err e => Err e
  | Ok process =>
      match user_service_find_by_id self user_id with
      | Err e => Err e
      | Ok user =>
          match process_service_find_start_point self (Process.id process) with
          | Err e => Err e
          | Ok state => Ok (process, user, state)
          end
      end
  end.

(** The request as [request_repo.create] stores and returns it. *)
Definition created_request (key : Z) (title : string) (user : User.t)
    (process : Process.t) (entity_model : string) (entity_id : Z) : Request.t :=
  Request.row
    (Request.set_id key
       (Request.mk None title (User.id user) (Process.id process) None None
          entity_model entity_id [])).

(** A stored request is fully initialized: it has a current state, a data
    snapshot and a note. *)
Definition fully_initialized (st : Store) (r : Request.t) : Prop :=
  is_Some (Request.current_state_id r) /\
  (exists d, In d (request_data_table st) /\ RequestData.request_id d = Request.id r) /\
  (exists n, In n (request_note_table st) /\ RequestNote.request_id n = Request.id r).

(** No partially initialized request became visible between [st] and
    [st']: every stored request was stored like that before or is fully
    initialized. *)
Definition no_partial_request (st st' : Store) : Prop :=
  forall key r,
    request_table st' !! key = Some r ->
    request_table st !! key = Some r \/ fully_initialized st' r.

(** The stores the service can bring about from the empty one. *)
Inductive reachable (self : RequestService) : Store -> Prop :=
  | reach_init : reachable self empty_store
  | reach_create st process_id user_id title content note stakeholders
      entity_model entity_id :
      reachable self st ->
      reachable self
        (fst (create_request self process_id user_id title content note
                stakeholders entity_model entity_id st))
  | reach_commit st request_id user_id action_id :
      reachable self st ->
      reachable self (fst (user_commit_action self request_id user_id action_id st))
  | reach_add_data st request value name data_type :
      reachable self st ->
      reachable self (fst (add_request_data self request value name data_type st))
  | reach_add_note st request note user_id note_type :
      reachable self st ->
      reachable self (fst (add_request_note self request note user_id note_type st))
  | reach_add_stakeholder st request stakeholder_id stakeholder_type :
      reachable self st ->
      reachable self
        (fst (add_request_stakeholder self request stakeholder_id stakeholder_type st)).

(** [current_state.process_id == request.process_id] for every stored
    request that has a current state. *)
Definition process_invariant (self : RequestService) (st : Store) : Prop :=
  forall key r state_id,
    request_table st !! key = Some r ->
    Request.current_state_id r = Some state_id ->
    exists state,
      current_state self state_id = Some state /\
      State.process_id state = Request.process_id r.

(** The process graph is well formed: the start state the process service
    names for a process is a state of that process, and a route out of a
    state leads to a state of the same process. *)
Definition start_state_in_process (self : RequestService) : Prop :=
  forall process_id process start,
    process_service_find_one self process_id = Ok process ->
    process_service_find_start_point self (Process.id process) = Ok start ->
    exists state,
      current_state self (State.id start) = Some state /\
      State.process_id state = Process.id process.

Definition routes_stay_in_process (self : RequestService) : Prop :=
  forall state_id state route,
    current_state self state_id = Some state ->
    In route (State.route state) ->
    exists target,
      current_state self (Route.next_state_id route) = Some target /\
      State.process_id target = State.process_id state.

(** The entities the three attachment operations build and validate. *)
Definition data_entity (self : RequestService) (request : Request.t)
    (value : Payload) (name data_type : string) : RequestData.t :=
  RequestData.mk None (Request.id request) data_type (Some "active"%string) name
    (if decide (data_type = DataType.json)
     then Dumped (json_dumps self value) else Raw value).

Definition note_entity (request : Request.t) (note : string) (user_id : Z)
    (note_type : string) : RequestNote.t :=
  RequestNote.mk None user_id (Request.id request) note_type None note.

Definition stakeholder_entity (request : Request.t) (stakeholder_id : Z)
    (stakeholder_type : string) : RequestStakeholder.t :=
  RequestStakeholder.mk None (Request.id request) stakeholder_id stakeholder_type.

(** What an attachment operation may do, given whether its entity passes
    validation: the request table is as before; a valid entity adds one
    row to its own table ([rows] counts them) and the request handed in
    comes back as it was; an invalid one raises InvalidInput with the
    store as before, no repository having been called. *)
Definition attachment_outcome (request : Request.t) (valid : bool)
    (rows : Store -> nat) (st : Store) (out : Store * Result Request.t) : Prop :=
  request_table (fst out) = request_table st /\
  if valid
  then snd out = Ok request /\ rows (fst out) = S (rows st)
  else out = (st, Err InvalidInput).

(** * A worked process: A -Submit-> B -Approve|Reject-> C *)

Module Scenario.

Definition submitters : Group.t := Group.mk 10.
Definition approvers : Group.t := Group.mk 20.

Definition Submit : Action.t := Action.mk 100 "Submit" [submitters].
Definition Approve : Action.t := Action.mk 101 "Approve" [approvers].
Definition Reject : Action.t := Action.mk 102 "Reject" [approvers].

Definition R1 : Route.t := Route.mk 1 2 [Submit].
Definition R2 : Route.t := Route.mk 2 3 [Approve; Reject].

Definition A : State.t := State.mk 1 1 [R1].
Definition B : State.t := State.mk 2 1 [R2].
Definition C : State.t := State.mk 3 1 [].

(** U1 submits, U2 approves, U3 belongs to no group. *)
Definition membership : list (Z * Z) := [(10, 1); (20, 2)].

Definition lookup_by {A} (key : A -> Z) (k : Z) (l : list A) : Result A :=
  match List.find (fun a => key a =? k) l with
  | Some a => Ok a
  | None => Err RecordNotFound
  end.

Definition service (states : list State.t) : RequestService := {|
  user_service_find_by_id :=
    find_by_id (fun uid => if 0 <? uid then Ok tt else Err InvalidInput)
      (fun uid => List.find (fun u => User.id u =? uid) [User.mk 1; User.mk 2; User.mk 3]);
  group_service_is_user_in_group gid uid :=
    existsb (fun m => (fst m =? gid) && (snd m =? uid)) membership;
  process_service_find_one pid := lookup_by Process.id pid [Process.mk 1];
  process_service_find_start_point pid :=
    if pid =? 1 then lookup_by State.id 1 states else Err RecordNotFound;
  action_service_find_one aid := lookup_by Action.id aid [Submit; Approve; Reject];
  current_state sid := List.find (fun s => State.id s =? sid) states;
  validate_request_data _ := true;
  validate_request_note n := negb (String.eqb (RequestNote.note n) "");
  validate_request_stakeholder _ := true;
  validate_request_action _ := true;
  json_dumps _ := "{}"%string
|}.

Definition svc : RequestService := service [A; B; C].

(** U1 opens a request on process 1. *)
Definition opened : Store * Result Request.t :=
  create_request svc 1 1 "leave" [] "please" [2] "" 0 empty_store.

Definition submitted : Store * Result Request.t :=
  user_commit_action svc 1 1 100 (fst opened).

Definition approved : Store * Result Request.t :=
  user_commit_action svc 1 2 101 (fst submitted).

(** U3, in no group, tries Reject at B. *)
Definition rejected : Store * Result Request.t :=
  user_commit_action svc 1 3 102 (fst submitted).

Definition request_of (r : Result Request.t) : Request.t :=
  match r with
  | Ok request => request
  | Err _ => Request.mk None "" 0 0 None None "" 0 []
  end.

Definition opened_request : Request.t := Eval vm_compute in request_of (snd opened).
Definition submitted_request : Request.t := Eval vm_compute in request_of (snd submitted).
Definition approved_request : Request.t := Eval vm_compute in request_of (snd approved).

(** U1 opens a request with an empty note, which the note validator of
    this service rejects. *)
Definition failed_opening : Store * Result Request.t :=
  create_request svc 1 1 "leave" [] "" [2] "" 0 empty_store.

(** A variant where two routes out of A gate Submit: R1 to B, then R1' to C. *)
Definition R1' : Route.t := Route.mk 4 3 [Submit].
Definition A' : State.t := State.mk 1 1 [R1; R1'].
Definition svc_two_routes : RequestService := service [A'; B; C].

Definition submitted_two_routes : Store * Result Request.t :=
  user_commit_action svc_two_routes 1 1 100 (fst opened).

Definition submitted_two_routes_request : Request.t :=
  Eval vm_compute in request_of (snd submitted_two_routes).

(** A graph where the route out of A leads to a state of another process. *)
Definition R_out : Route.t := Route.mk 1 9 [Submit].
Definition A_out : State.t := State.mk 1 1 [R_out].
Definition D : State.t := State.mk 9 2 [].
Definition svc_cross : RequestService := service [A_out; D].

Definition opened_cross : Store * Result Request.t :=
  create_request svc_cross 1 1 "leave" [] "please" [2] "" 0 empty_store.

Definition submitted_cross : Store * Result Request.t :=
  user_commit_action svc_cross 1 1 100 (fst opened_cross).

Definition submitted_cross_request : Request.t :=
  Eval vm_compute in request_of (snd submitted_cross).

End Scenario.

(** * [UserService.is_accessible] ([usecase/user.py]) *)

(** The access policy row [find_for_token_validation] returns: a point in
    time before which tokens are denied, and a note.  The type of points in
    time and [time_to_int] ([app.pkgs.time], absent) are taken as given. *)
Module AccessPolicy.
Record t (Time : Type) : Type := mk { denied_before : Time; note : string }.
Arguments mk {Time} denied_before note.
Arguments denied_before {Time} _.
Arguments note {Time} _.
End AccessPolicy.

Section Accessible.
Context {Time : Type}.
Variable time_to_int : Time -> Z.
Variable find_for_token_validation : Z -> list Z -> option (AccessPolicy.t Time).

Definition is_accessible (user_id : Z) (role_ids : list Z) (token_iat_int : Z)
  : bool * string :=
  let checker := find_for_token_validation user_id role_ids in
  match checker with
  | None => (true, "ok"%string)
  | Some checker =>
      if time_to_int (AccessPolicy.denied_before checker) >? token_iat_int
      then (false, AccessPolicy.note checker)
      else (true, "ok"%string)
  end.

End Accessible.

(** * Vocabulary for the store over time *)

(** Every request is stored under its own id. *)
Definition keys_coherent (st : Store) : Prop :=
  forall key r, request_table st !! key = Some r -> Request.id r = Some key.

(** Every stored history entry is closed: its status is 'done', it carries
    the id of the request it hangs on, and, being a row, it has no
    [route_to_next_state]. *)
Definition history_closed (st : Store) : Prop :=
  forall key r entry,
    request_table st !! key = Some r ->
    In entry (Request.request_action r) ->
    RequestAction.status entry = Some "done"%string /\
    RequestAction.request_id entry = Some key /\
    RequestAction.route_to_next_state entry = None.

(** The stakeholder rows [add_request_stakeholder] creates for the ids
    [stakeholders], the table holding [n] rows before the first. *)
Fixpoint stakeholder_rows (request : Request.t) (n : nat) (stakeholders : list Z)
  : list RequestStakeholder.t :=
  match stakeholders with
  | [] => []
  | stakeholder_id :: rest =>
      RequestStakeholder.set_id (Z.of_nat n + 1)
        (stakeholder_entity request stakeholder_id StakeholderType.user)
      :: stakeholder_rows request (S n) rest
  end.

(** The stakeholder with this id passes validation when attached to
    [request] by [create_request]. *)
Definition stakeholder_ok (self : RequestService) (request : Request.t)
    (stakeholder_id : Z) : Prop :=
  validate_request_stakeholder self
    (stakeholder_entity request stakeholder_id StakeholderType.user) = true.

(** * More of the worked process *)

Module Walkthrough.

(** U2 opens a second request once the first has reached C. *)
Definition second_opening : Store * Result Request.t :=
  create_request Scenario.svc 1 2 "travel" [] "two days" [1; 3] "trip" 7
    (fst Scenario.approved).

Definition second_request : Request.t :=
  Eval vm_compute in Scenario.request_of (snd second_opening).

(** A service that accepts stakeholders with a positive id only. *)
Definition strict : RequestService := {|
  user_service_find_by_id := user_service_find_by_id Scenario.svc;
  group_service_is_user_in_group := group_service_is_user_in_group Scenario.svc;
  process_service_find_one := process_service_find_one Scenario.svc;
  process_service_find_start_point := process_service_find_start_point Scenario.svc;
  action_service_find_one := action_service_find_one Scenario.svc;
  current_state := current_state Scenario.svc;
  validate_request_data := validate_request_data Scenario.svc;
  validate_request_note := validate_request_note Scenario.svc;
  validate_request_stakeholder s := 0 <? RequestStakeholder.stakeholder_id s;
  validate_request_action := validate_request_action Scenario.svc;
  json_dumps := json_dumps Scenario.svc
|}.

(** Stakeholders 2 and 3 are fine, 0 is not, 5 is never reached. *)
Definition half_attached : Store * Result Request.t :=
  create_request strict 1 1 "leave" [] "please" [2; 3; 0; 5] "" 0 empty_store.

(** U1 has been denied every token issued before time 500; nobody else
    has a policy. *)
Definition policies (user_id : Z) (role_ids : list Z) : option (AccessPolicy.t Z) :=
  if user_id =? 1 then Some (AccessPolicy.mk 500 "password changed") else None.

End Walkthrough.

(** * Facts about the methods *)

Section AuthorizationFacts.
Variable self : RequestService.

Lemma any_group_spec (user_id : Z) (group_ids : list Z) :
    any_group self user_id group_ids = true <->
    exists group_id, In group_id group_ids /\
      group_service_is_user_in_group self group_id user_id = true.
Proof.
    induction group_ids as [|g gs IH]; simpl.
    - split; [discriminate | intros (g & [] & _)].
    - destruct (group_service_is_user_in_group self g user_id) eqn:Hg.
      + split; [intros _; exists g; auto | reflexivity].
      + rewrite IH. split.
        * intros (g' & Hin & Hm). exists g'. auto.
        * intros (g' & [<- | Hin] & Hm); [congruence | exists g'; auto].
Qed.
Lemma should_user_commit_action_member (user_id : Z) (action : Action.t) :
  should_user_commit_action self user_id action = true <->
  exists group, In group (Action.target action) /\
    group_service_is_user_in_group self (Group.id group) user_id = true.
Proof.
  unfold should_user_commit_action. rewrite any_group_spec. split.
  - intros (gid & Hin & Hm). apply in_map_iff in Hin as (group & <- & Hin). eauto.
  - intros (group & Hin & Hm). exists (Group.id group). split; [|done].
    by apply in_map.
Qed.

End AuthorizationFacts.

(** ** The loops of [create_request_action] and [user_commit_action] *)

Lemma scan_actions_fst (cid : Z) (route : Route.t) (acts : list Action.t)
    (acc : list Action.t * option Route.t) :
  fst (scan_actions cid route acts acc)
  = fst acc ++ List.filter (fun act => Action.id act =? cid) acts.
Proof.
  revert acc. induction acts as [|act rest IH]; intros acc; simpl.
  - by rewrite app_nil_r.
  - destruct (Action.id act =? cid); rewrite IH; simpl; [|done].
    by rewrite <- app_assoc.
Qed.

Lemma scan_actions_snd (cid : Z) (route : Route.t) (acts : list Action.t)
    (acc : list Action.t * option Route.t) :
  snd (scan_actions cid route acts acc)
  = if existsb (fun act => Action.id act =? cid) acts then Some route else snd acc.
Proof.
  revert acc. induction acts as [|act rest IH]; intros acc; simpl; [done|].
  destruct (Action.id act =? cid); rewrite IH; simpl; [|done].
  by destruct (existsb _ rest).
Qed.

Lemma scan_routes_fst (cid : Z) (routes : list Route.t)
    (acc : list Action.t * option Route.t) :
  fst (scan_routes cid routes acc) = fst acc ++ gated cid routes.
Proof.
  revert acc. induction routes as [|route rest IH]; intros acc; simpl.
  - by rewrite app_nil_r.
  - rewrite IH, scan_actions_fst. by rewrite <- app_assoc.
Qed.

Lemma scan_routes_snd (cid : Z) (routes : list Route.t)
    (acc : list Action.t * option Route.t) :
  snd (scan_routes cid routes acc)
  = match last (List.filter (gates cid) routes) with
    | Some route => Some route
    | None => snd acc
    end.
Proof.
  revert acc. induction routes as [|route rest IH]; intros acc; simpl; [done|].
  rewrite IH, scan_actions_snd. fold (gates cid route).
  destruct (gates cid route); simpl; [|done].
  destruct (List.filter (gates cid) rest) as [|r l] eqn:E; simpl; [done|].
  destruct (last (r :: l)) eqn:El; [done|]. by apply last_None in El.
Qed.

(** The last gating route splits the enumeration: it gates the id and no
    route after it does. *)
Lemma last_filter_split {A} (f : A -> bool) (l : list A) (x : A) :
  last (List.filter f l) = Some x <->
  exists before after,
    l = before ++ x :: after /\ f x = true /\ Forall (fun y => f y = false) after.
Proof.
  split.
  - induction l as [|a l IH]; simpl; [done|].
    destruct (f a) eqn:Ha.
    + rewrite last_cons. destruct (last (List.filter f l)) as [y|] eqn:El.
      * intros [= ->]. destruct (IH eq_refl) as (b & c & -> & ? & ?).
        by exists (a :: b), c.
      * intros [= ->]. exists [], l. split_and!; [done..|].
        apply last_None in El. apply Forall_forall. intros y Hy.
        destruct (f y) eqn:Hfy; [|done].
        assert (In y (List.filter f l)) as Hin
          by (apply filter_In; split; [by apply list_elem_of_In|done]).
        rewrite El in Hin. destruct Hin.
    + intros H. destruct (IH H) as (b & c & -> & ? & ?). by exists (a :: b), c.
  - intros (b & c & -> & Hx & Hc).
    rewrite List.filter_app. simpl. rewrite Hx.
    assert (List.filter f c = []) as ->.
    { clear -Hc. induction Hc as [|y c Hy _ IH]; simpl; [done|]. by rewrite Hy. }
    by rewrite last_snoc.
Qed.

Lemma gated_existsb_gates (cid : Z) (routes : list Route.t) :
  gated cid routes = [] <-> List.filter (gates cid) routes = [].
Proof.
  induction routes as [|route rest IH]; simpl; [done|].
  unfold gates at 1.
  destruct (existsb _ (Route.action route)) eqn:E.
  - split; [|done]. intros H. apply app_eq_nil in H as [H _].
    apply existsb_exists in E as (act & Hin & Hid).
    assert (In act (List.filter (fun act => Action.id act =? cid) (Route.action route)))
      as Hf by (apply filter_In; done).
    rewrite H in Hf. destruct Hf.
  - rewrite <- IH. split.
    + intros H. by apply app_eq_nil in H as [_ H].
    + intros ->. rewrite app_nil_r.
      destruct (List.filter _ (Route.action route)) as [|act l] eqn:Ef; [done|].
      assert (In act (List.filter (fun act => Action.id act =? cid) (Route.action route)))
        as Hf by (rewrite Ef; left; done).
      apply filter_In in Hf as [Hin Hid].
      assert (existsb (fun act => Action.id act =? cid) (Route.action route) = true)
        as E' by (apply existsb_exists; eauto).
      congruence.
Qed.

Lemma In_gated (cid : Z) (routes : list Route.t) (act : Action.t) :
  In act (gated cid routes) <->
  exists route, In route routes /\ In act (Route.action route) /\ Action.id act = cid.
Proof.
  unfold gated. rewrite in_flat_map. split.
  - intros (route & Hr & Hf). apply filter_In in Hf as [? ?%Z.eqb_eq]. eauto.
  - intros (route & Hr & Ha & Hid). exists route. split; [done|].
    apply filter_In. split; [done|]. by apply Z.eqb_eq.
Qed.

Lemma mark_done_spec (history : list RequestAction.t) (request_action : RequestAction.t) :
  mark_done history request_action
  = (map closed history, default request_action (last (map closed history))).
Proof.
  revert request_action. induction history as [|entry rest IH]; intros v; simpl; [done|].
  rewrite IH. simpl. f_equal. fold (closed entry).
  destruct (map closed rest) as [|e l] eqn:E; [done|].
  simpl. destruct (last (e :: l)) eqn:El; [done|]. by apply last_None in El.
Qed.

Lemma filter_nil_existsb {A} (f : A -> bool) (l : list A) :
  List.filter f l = [] <-> existsb f l = false.
Proof.
  induction l as [|a l IH]; simpl; [done|].
  destruct (f a); simpl; [split; discriminate | exact IH].
Qed.

(** ** What a commit does, case by case *)

Section CommitFacts.
Variable self : RequestService.

(** [create_request_action] on the request object: the outcome and the
    object afterwards, for every input. *)
Lemma create_request_action_eq (user : User.t) (action : Action.t) (request : Request.t) :
  create_request_action self user action request =
  match get_route self request with
  | Err e => (request, Err e)
  | Ok routes =>
      if existsb (should_user_commit_action self (User.id user))
           (gated (Action.id action) routes)
      then
        match last (List.filter (gates (Action.id action)) routes) with
        | None => (request, Err AttributeError)
        | Some route =>
            let request_action := entry_of request user action route in
            if validate_request_action self request_action
            then (Request.set_request_action
                    (Request.request_action request ++ [request_action]) request,
                  Ok request_action)
            else (request, Err InvalidInput)
        end
      else (request, Err (DontHaveRight (User.id user)))
  end.
Proof.
  unfold create_request_action, bind, get, lift.
  destruct (get_route self request) as [routes|e]; [|done].
  rewrite scan_routes_fst, scan_routes_snd. simpl.
  destruct (existsb _ (gated (Action.id action) routes)) eqn:Hallowed.
  - destruct (List.filter _ (gated _ routes)) as [|a l] eqn:Hf.
    { apply filter_nil_existsb in Hf. congruence. }
    destruct (last (List.filter (gates (Action.id action)) routes)) as [route|];
      [|done].
    unfold validate, entry_of.
    destruct (validate_request_action self _); done.
  - apply filter_nil_existsb in Hallowed. by rewrite Hallowed.
Qed.

(** An allowed gated action has a turning route. *)
Lemma allowed_has_turning_route (cid : Z) (routes : list Route.t) (act : Action.t) :
  In act (gated cid routes) ->
  exists route, last (List.filter (gates cid) routes) = Some route.
Proof.
  intros Hin.
  destruct (last (List.filter (gates cid) routes)) as [route|] eqn:El; [eauto|].
  apply last_None, gated_existsb_gates in El. rewrite El in Hin. destruct Hin.
Qed.

Lemma set_request_action_twice (l l' : list RequestAction.t) (r : Request.t) :
  Request.set_request_action l (Request.set_request_action l' r)
  = Request.set_request_action l r.
Proof. reflexivity. Qed.

(** The marking loop run on the history that ends with the new entry. *)
Lemma commit_tail (request : Request.t) (entry : RequestAction.t) :
  mark_done
    (Request.request_action
       (Request.set_request_action (Request.request_action request ++ [entry]) request))
    entry
  = (map closed (Request.request_action request ++ [entry]), closed entry).
Proof.
  rewrite mark_done_spec. cbn [Request.request_action Request.set_request_action].
  rewrite map_app. cbn [map]. by rewrite last_snoc.
Qed.

(** When and how [user_commit_action] succeeds. *)
Lemma user_commit_action_ok (request_id user_id action_id : Z)
    (st st' : Store) (r' : Request.t) :
  user_commit_action self request_id user_id action_id st = (st', Ok r') <->
  exists request user action routes route act,
    request_repo_find_one request_id st = Some request /\
    user_service_find_by_id self user_id = Ok user /\
    action_service_find_one self action_id = Ok action /\
    get_route self request = Ok routes /\
    In act (gated (Action.id action) routes) /\
    should_user_commit_action self (User.id user) act = true /\
    last (List.filter (gates (Action.id action)) routes) = Some route /\
    validate_request_action self (entry_of request user action route) = true /\
    r' = committed request user action route /\
    st' = fst (request_repo_update r' st).
Proof.
  unfold user_commit_action, bind, find_one_request, lift, raise.
  split.
  - destruct (request_repo_find_one request_id st) as [request|]; [|done].
    destruct (user_service_find_by_id self user_id) as [user|]; [|done].
    destruct (action_service_find_one self action_id) as [action|]; [|done].
    rewrite create_request_action_eq.
    destruct (get_route self request) as [routes|] eqn:Hroutes; [|done].
    destruct (existsb _ _) eqn:Hallowed; [|done].
    apply existsb_exists in Hallowed as (act & Hin & Hact).
    destruct (last (List.filter _ routes)) as [route|] eqn:Hlast; [|done].
    cbv zeta.
    destruct (validate_request_action self _) eqn:Hvalid; [|done].
    rewrite commit_tail. cbn [fst snd].
    cbn [closed RequestAction.set_status RequestAction.route_to_next_state entry_of].
    fold (entry_of request user action route). rewrite set_request_action_twice.
    fold (committed request user action route).
    intros Hup.
    exists request, user, action, routes, route, act.
    assert (r' = committed request user action route) as ->.
    { unfold request_repo_update in Hup.
      destruct (Request.id _); by inversion Hup. }
    split_and!; try done. by rewrite Hup.
  - intros (request & user & action & routes & route & act
            & -> & -> & -> & Hroutes & Hin & Hact & Hlast & Hvalid & -> & ->).
    rewrite create_request_action_eq, Hroutes.
    assert (existsb (should_user_commit_action self (User.id user))
              (gated (Action.id action) routes) = true) as ->
      by (apply existsb_exists; eauto).
    rewrite Hlast. cbv zeta. rewrite Hvalid.
    rewrite commit_tail. cbn [fst snd].
    cbn [closed RequestAction.set_status RequestAction.route_to_next_state entry_of].
    fold (entry_of request user action route). rewrite set_request_action_twice.
    fold (committed request user action route).
    unfold request_repo_update. by destruct (Request.id _).
Qed.

End CommitFacts.

(** ** The loops of [find_request_allowed_action] *)

Lemma extend_actions_spec (routes : list Route.t) (actions : list Action.t) :
  extend_actions routes actions = actions ++ concat (map Route.action routes).
Proof.
  revert actions. induction routes as [|route rest IH]; intros actions; simpl.
  - by rewrite app_nil_r.
  - by rewrite IH, <- app_assoc.
Qed.

(** The index loop with the first [length resolved] slots already
    rewritten. *)
Lemma resolve_actions_from (self : RequestService)
    (resolved todo : list Action.t) :
  resolve_actions self (seq (length resolved) (length todo)) (resolved ++ todo)
  = match traverse (fun stale => action_service_find_one self (Action.id stale)) todo with
    | Ok fresh => Ok (resolved ++ fresh)
    | Err e => Err e
    end.
Proof.
  revert resolved. induction todo as [|stale todo IH]; intros resolved; simpl.
  - done.
  - rewrite list_lookup_middle by done.
    destruct (action_service_find_one self (Action.id stale)) as [action|e]; [|done].
    rewrite insert_app_r_alt, Nat.sub_diag by done. simpl.
    specialize (IH (resolved ++ [action])).
    rewrite length_app, Nat.add_1_r, <- app_assoc in IH. simpl in IH. rewrite IH.
    destruct (traverse _ todo); [|done]. by rewrite <- app_assoc.
Qed.

(** ** The writes of [create_request] *)

Section CreationFacts.
Variable self : RequestService.

Lemma add_request_data_eq (request : Request.t) (value : Payload)
    (name data_type : string) (st : Store) :
  add_request_data self request value name data_type st =
  let d := data_entity self request value name data_type in
  if validate_request_data self d
  then (with_request_data_table
          (request_data_table st
           ++ [RequestData.set_id (Z.of_nat (length (request_data_table st)) + 1) d]) st,
        Ok request)
  else (st, Err InvalidInput).
Proof.
  unfold add_request_data, bind, validate.
  fold (data_entity self request value name data_type). cbv zeta.
  by destruct (validate_request_data self _).
Qed.

Lemma add_request_note_eq (request : Request.t) (note : string) (user_id : Z)
    (note_type : string) (st : Store) :
  add_request_note self request note user_id note_type st =
  let n := note_entity request note user_id note_type in
  if validate_request_note self n
  then (with_request_note_table
          (request_note_table st
           ++ [RequestNote.set_id (Z.of_nat (length (request_note_table st)) + 1) n]) st,
        Ok request)
  else (st, Err InvalidInput).
Proof.
  unfold add_request_note, bind, validate.
  fold (note_entity request note user_id note_type). cbv zeta.
  by destruct (validate_request_note self _).
Qed.

Lemma add_request_stakeholder_eq (request : Request.t) (stakeholder_id : Z)
    (stakeholder_type : string) (st : Store) :
  add_request_stakeholder self request stakeholder_id stakeholder_type st =
  let s := stakeholder_entity request stakeholder_id stakeholder_type in
  if validate_request_stakeholder self s
  then (with_request_stakeholder_table
          (request_stakeholder_table st
           ++ [RequestStakeholder.set_id
                 (Z.of_nat (length (request_stakeholder_table st)) + 1) s]) st,
        Ok request)
  else (st, Err InvalidInput).
Proof.
  unfold add_request_stakeholder, bind, validate.
  fold (stakeholder_entity request stakeholder_id stakeholder_type). cbv zeta.
  by destruct (validate_request_stakeholder self _).
Qed.

(** The stakeholder loop writes stakeholder rows only and can only fail
    with InvalidInput. *)
Lemma add_stakeholders_frame (request : Request.t) (stakeholders : list Z) (st : Store) :
  let out := add_stakeholders self request stakeholders st in
  request_table (fst out) = request_table st /\
  request_data_table (fst out) = request_data_table st /\
  request_note_table (fst out) = request_note_table st /\
  (snd out = Ok tt \/ snd out = Err InvalidInput).
Proof.
  revert st. induction stakeholders as [|sid rest IH]; intros st; simpl.
  - split_and!; auto.
  - unfold bind. rewrite add_request_stakeholder_eq. cbv zeta.
    destruct (validate_request_stakeholder self _).
    + destruct (IH (with_request_stakeholder_table
                      (request_stakeholder_table st
                       ++ [RequestStakeholder.set_id
                             (Z.of_nat (length (request_stakeholder_table st)) + 1)
                             (stakeholder_entity request sid StakeholderType.user)]) st))
        as (-> & -> & -> & Hres).
      split_and!; done.
    + split_and!; auto.
Qed.

Lemma fresh_request_key (st : Store) :
  request_table st !! fresh ({[0]} ∪ dom (request_table st)) = None.
Proof.
  apply not_elem_of_dom. intros Hin.
  apply (is_fresh ({[0]} ∪ dom (request_table st))). set_solver.
Qed.

(** Every outcome of [create_request]: what is returned and what the
    request table holds afterwards. *)
Lemma create_request_cases (process_id user_id : Z) (title : string)
    (content : Payload) (note : string) (stakeholders : list Z)
    (entity_model : string) (entity_id : Z) (st : Store) :
  let out := create_request self process_id user_id title content note
               stakeholders entity_model entity_id st in
  match resolve_creation self process_id user_id with
  | Err e => out = (st, Err e)
  | Ok (process, user, state) =>
      let key := fresh ({[0]} ∪ dom (request_table st)) in
      let r0 := created_request key title user process entity_model entity_id in
      (snd out = Err InvalidInput /\
       request_table (fst out) = <[key := r0]> (request_table st))
      \/ (snd out = Ok (Request.set_current_state_id (State.id state) r0) /\
          request_table (fst out)
          = <[key := Request.set_current_state_id (State.id state) r0]> (request_table st) /\
          (exists d, In d (request_data_table (fst out)) /\
                     RequestData.request_id d = Some key) /\
          (exists n, In n (request_note_table (fst out)) /\
                     RequestNote.request_id n = Some key))
  end.
Proof.
  cbv zeta. unfold create_request, resolve_creation, bind, lift.
  destruct (process_service_find_one self process_id) as [process|]; [|done].
  destruct (user_service_find_by_id self user_id) as [user|]; [|done].
  destruct (process_service_find_start_point self _) as [state|]; [|done].
  unfold request_repo_create.
  fold (created_request (fresh ({[0]} ∪ dom (request_table st))) title user process
          entity_model entity_id).
  set (key := fresh ({[0]} ∪ dom (request_table st))).
  set (r0 := created_request key title user process entity_model entity_id).
  rewrite add_request_data_eq. cbv zeta.
  destruct (validate_request_data self _); [|left; done].
  rewrite add_request_note_eq. cbv zeta.
  destruct (validate_request_note self _); [|left; done].
  match goal with
  | |- context [add_stakeholders self r0 stakeholders ?s] =>
      pose proof (add_stakeholders_frame r0 stakeholders s) as Hframe;
      destruct (add_stakeholders self r0 stakeholders s) as [st3 res] eqn:Hloop
  end.
  cbv zeta in Hframe. cbn [fst snd] in Hframe.
  destruct Hframe as (Htable & Hdata & Hnote & [-> | ->]).
  - right. unfold request_repo_update.
    cbn [Request.id Request.set_current_state_id r0 created_request Request.row
           Request.set_id]. cbn [fst snd request_table with_request_table].
    split_and!.
    + done.
    + rewrite Htable. cbn. by rewrite insert_insert_eq.
    + cbn [request_data_table with_request_table]. rewrite Hdata. cbn.
      eexists. split; [apply in_or_app; right; left; reflexivity|done].
    + cbn [request_note_table with_request_table]. rewrite Hnote. cbn.
      eexists. split; [apply in_or_app; right; left; reflexivity|done].
  - left. split; [done|]. cbn [fst]. by rewrite Htable.
Qed.

End CreationFacts.

(** ** Failing commits write nothing *)

Lemma user_commit_action_err (self : RequestService)
    (request_id user_id action_id : Z) (st st' : Store) (e : Error) :
  user_commit_action self request_id user_id action_id st = (st', Err e) -> st' = st.
Proof.
  unfold user_commit_action, bind, find_one_request, lift, raise.
  destruct (request_repo_find_one request_id st) as [request|]; [|by intros [= <-]].
  destruct (user_service_find_by_id self user_id) as [user|]; [|by intros [= <-]].
  destruct (action_service_find_one self action_id) as [action|]; [|by intros [= <-]].
  rewrite create_request_action_eq.
  destruct (get_route self request) as [routes|]; [|by intros [= <-]].
  destruct (existsb _ _); [|by intros [= <-]].
  destruct (last (List.filter _ routes)) as [route|]; [|by intros [= <-]].
  cbv zeta. destruct (validate_request_action self _); [|by intros [= <-]].
  rewrite commit_tail. cbn [fst snd].
  cbn [closed RequestAction.set_status RequestAction.route_to_next_state entry_of].
  unfold request_repo_update. by destruct (Request.id _).
Qed.

(** ** The process of the current state *)

Section InvariantFacts.
Variable self : RequestService.
Hypothesis Hstart : start_state_in_process self.
Hypothesis Hroutes : routes_stay_in_process self.

Lemma process_invariant_insert (st : Store) (key : Z) (r : Request.t) :
  process_invariant self st ->
  (forall state_id, Request.current_state_id r = Some state_id ->
     exists state, current_state self state_id = Some state /\
                   State.process_id state = Request.process_id r) ->
  process_invariant self (with_request_table (<[key := r]> (request_table st)) st).
Proof.
  intros Hinv Hr key' r' state_id. cbn [request_table with_request_table].
  rewrite lookup_insert. case_decide as Hk.
  - intros [= <-]. apply Hr.
  - apply Hinv.
Qed.

Lemma process_invariant_same_table (st st' : Store) :
  request_table st' = request_table st ->
  process_invariant self st -> process_invariant self st'.
Proof. intros Heq Hinv key r state_id. rewrite Heq. apply Hinv. Qed.

Lemma create_request_keeps_invariant (process_id user_id : Z) (title : string)
    (content : Payload) (note : string) (stakeholders : list Z)
    (entity_model : string) (entity_id : Z) (st : Store) :
  process_invariant self st ->
  process_invariant self
    (fst (create_request self process_id user_id title content note
            stakeholders entity_model entity_id st)).
Proof.
  intros Hinv.
  pose proof (create_request_cases self process_id user_id title content note
                stakeholders entity_model entity_id st) as H. cbv zeta in H.
  unfold resolve_creation in H.
  destruct (process_service_find_one self process_id) as [process|] eqn:Hp;
    [|by rewrite H].
  destruct (user_service_find_by_id self user_id) as [user|]; [|by rewrite H].
  destruct (process_service_find_start_point self _) as [start|] eqn:Hs;
    [|by rewrite H].
  destruct H as [[_ Htable] | (_ & Htable & _)].
  - intros key r state_id. rewrite Htable, lookup_insert. case_decide.
    + by intros [= <-].
    + apply Hinv.
  - intros key r state_id. rewrite Htable, lookup_insert. case_decide.
    + intros [= <-]. cbn. intros [= <-]. exact (Hstart _ _ _ Hp Hs).
    + apply Hinv.
Qed.

Lemma user_commit_action_keeps_invariant (request_id user_id action_id : Z) (st : Store) :
  process_invariant self st ->
  process_invariant self (fst (user_commit_action self request_id user_id action_id st)).
Proof.
  intros Hinv.
  destruct (user_commit_action self request_id user_id action_id st)
    as [st' [r'|e]] eqn:Hout; cbn [fst].
  - apply user_commit_action_ok in Hout
      as (request & user & action & routes & route & act
          & Hreq & _ & _ & Hget & _ & _ & Hlast & _ & -> & ->).
    unfold request_repo_update.
    destruct (Request.id (committed request user action route)) as [key|]; [|done].
    cbn [fst]. apply process_invariant_insert; [done|].
    cbn. intros state_id [= <-].
    unfold get_route in Hget.
    destruct (Request.current_state_id request) as [sid|] eqn:Hsid; [|done].
    destruct (current_state self sid) as [state|] eqn:Hstate; [|done].
    injection Hget as <-.
    apply last_filter_split in Hlast as (before & after & Hsplit & _ & _).
    destruct (Hroutes sid state route Hstate) as (target & Htarget & Hproc).
    { rewrite Hsplit. apply in_or_app. right. by left. }
    destruct (Hinv _ _ _ Hreq Hsid) as (state' & Hstate' & Hproc').
    exists target. split; [done|]. congruence.
  - by rewrite (user_commit_action_err _ _ _ _ _ _ _ Hout).
Qed.

Lemma reachable_process_invariant (st : Store) :
  reachable self st -> process_invariant self st.
Proof.
  induction 1 as [| | |st request value name data_type _ IH
                  |st request note user_id note_type _ IH
                  |st request stakeholder_id stakeholder_type _ IH].
  - intros key r state_id Hlookup. cbn [request_table empty_store] in Hlookup.
    by rewrite lookup_empty in Hlookup.
  - by apply create_request_keeps_invariant.
  - by apply user_commit_action_keeps_invariant.
  - rewrite add_request_data_eq. cbv zeta.
    destruct (validate_request_data self _); [|done].
    by apply (process_invariant_same_table st).
  - rewrite add_request_note_eq. cbv zeta.
    destruct (validate_request_note self _); [|done].
    by apply (process_invariant_same_table st).
  - rewrite add_request_stakeholder_eq. cbv zeta.
    destruct (validate_request_stakeholder self _); [|done].
    by apply (process_invariant_same_table st).
Qed.

End InvariantFacts.

(** * The claims *)

(** C5. A user is allowed to commit an action if and only if the
    group-membership collaborator says the user is a member of at least one
    group of the action's target set; with an empty target set nobody is
    allowed. *)
Theorem should_user_commit_action_iff_member
    (self : RequestService) (user_id : Z) (action : Action.t) :
  (should_user_commit_action self user_id action = true <->
   exists group, In group (Action.target action) /\
     group_service_is_user_in_group self (Group.id group) user_id = true)
  /\ (forall action_id name,
        should_user_commit_action self user_id (Action.mk action_id name []) = false).
Proof.
  split; [apply should_user_commit_action_member | done].
Qed.

(** C1. A commit that succeeds (request, user and action resolved, and the
    user allowed for an action with the committed id gated from the
    request's current state) appends exactly one new RequestAction to the
    request's history, sets the status of every entry of the history, the
    new one included, to 'done', moves [current_state_id] to the
    [next_state_id] of the turning route, and hands that request to the
    repository. *)
Theorem commit_appends_marks_and_advances
    (self : RequestService) (request_id user_id action_id : Z)
    (st st' : Store) (r' : Request.t) :
  user_commit_action self request_id user_id action_id st = (st', Ok r') ->
  exists request user action routes route,
    request_repo_find_one request_id st = Some request /\
    user_service_find_by_id self user_id = Ok user /\
    action_service_find_one self action_id = Ok action /\
    get_route self request = Ok routes /\
    (exists act, In act (gated (Action.id action) routes) /\
       should_user_commit_action self (User.id user) act = true) /\
    snd (scan_routes (Action.id action) routes ([], None)) = Some route /\
    Request.request_action r'
      = map (RequestAction.set_status "done") (Request.request_action request)
        ++ [RequestAction.set_status "done" (entry_of request user action route)] /\
    length (Request.request_action r') = S (length (Request.request_action request)) /\
    Forall (fun entry => RequestAction.status entry = Some "done"%string)
      (Request.request_action r') /\
    Request.current_state_id r' = Some (Route.next_state_id route) /\
    st' = fst (request_repo_update r' st).
Proof.
  intros H. apply user_commit_action_ok in H
    as (request & user & action & routes & route & act
        & Hreq & Huser & Haction & Hroutes & Hin & Hact & Hlast & Hvalid & -> & ->).
  exists request, user, action, routes, route.
  split_and!; try done.
  - by exists act.
  - by rewrite scan_routes_snd, Hlast.
  - unfold committed. cbn [Request.request_action Request.set_current_state_id
      Request.set_request_action]. by rewrite map_app.
  - unfold committed. cbn [Request.request_action Request.set_current_state_id
      Request.set_request_action]. rewrite length_map, length_app. simpl. lia.
  - unfold committed. cbn [Request.request_action Request.set_current_state_id
      Request.set_request_action]. apply Forall_forall. intros entry Hentry.
    apply list_elem_of_In, in_map_iff in Hentry as (e & <- & _). done.
Qed.

(** C2. When request, user and action resolve but the user is in no group
    targeted by any action, gated from the current state, that has the
    committed id, the commit fails with DontHaveRight; the store is the
    one before the call and the request object is untouched, so no
    RequestAction is created and the state does not change. *)
Theorem unauthorized_commit_changes_nothing
    (self : RequestService) (request_id user_id action_id : Z) (st : Store)
    (request : Request.t) (user : User.t) (action : Action.t)
    (routes : list Route.t) :
  request_repo_find_one request_id st = Some request ->
  user_service_find_by_id self user_id = Ok user ->
  action_service_find_one self action_id = Ok action ->
  get_route self request = Ok routes ->
  (forall route act group,
     In route routes -> In act (Route.action route) ->
     Action.id act = Action.id action -> In group (Action.target act) ->
     group_service_is_user_in_group self (Group.id group) (User.id user) = false) ->
  user_commit_action self request_id user_id action_id st
    = (st, Err (DontHaveRight (User.id user)))
  /\ create_request_action self user action request
    = (request, Err (DontHaveRight (User.id user))).
Proof.
  intros Hreq Huser Haction Hroutes Hnot.
  assert (create_request_action self user action request
          = (request, Err (DontHaveRight (User.id user)))) as Hcreate.
  { rewrite create_request_action_eq, Hroutes.
    destruct (existsb _ _) eqn:Hallowed; [|done].
    apply existsb_exists in Hallowed as (act & Hin & Hact).
    apply In_gated in Hin as (route & Hr & Ha & Hid).
    apply should_user_commit_action_member in Hact as (group & Hg & Hm).
    by rewrite (Hnot route act group) in Hm. }
  split; [|done].
  unfold user_commit_action, bind, find_one_request, lift, raise.
  by rewrite Hreq, Huser, Haction, Hcreate.
Qed.


(** C10. After the marking loop the name [request_action] is bound to the
    last element of the history, whatever it was bound to before; the
    entry just created was appended last, so that element is the new entry
    and a successful commit moves the request to the [next_state_id] of the
    new entry's route. *)
Theorem commit_advances_by_last_history_entry
    (self : RequestService) (request_id user_id action_id : Z)
    (st st' : Store) (r' : Request.t) :
  user_commit_action self request_id user_id action_id st = (st', Ok r') ->
  exists request user action appended entry route,
    request_repo_find_one request_id st = Some request /\
    user_service_find_by_id self user_id = Ok user /\
    action_service_find_one self action_id = Ok action /\
    create_request_action self user action request = (appended, Ok entry) /\
    Request.request_action appended = Request.request_action request ++ [entry] /\
    (forall bound,
       snd (mark_done (Request.request_action appended) bound)
       = RequestAction.set_status "done" entry) /\
    last (Request.request_action r') = Some (RequestAction.set_status "done" entry) /\
    RequestAction.route_to_next_state entry = Some route /\
    Request.current_state_id r' = Some (Route.next_state_id route).
Proof.
  intros H. apply user_commit_action_ok in H
    as (request & user & action & routes & route & act
        & Hreq & Huser & Haction & Hroutes & Hin & Hact & Hlast & Hvalid & -> & ->).
  exists request, user, action,
    (Request.set_request_action
       (Request.request_action request ++ [entry_of request user action route]) request),
    (entry_of request user action route), route.
  split_and!; try done.
  - rewrite create_request_action_eq, Hroutes.
    assert (existsb (should_user_commit_action self (User.id user))
              (gated (Action.id action) routes) = true) as ->
      by (apply existsb_exists; eauto).
    rewrite Hlast. cbv zeta. by rewrite Hvalid.
  - intros bound. rewrite mark_done_spec.
    cbn [snd Request.request_action Request.set_request_action].
    rewrite map_app. cbn [map]. by rewrite last_snoc.
  - unfold committed. cbn [Request.request_action Request.set_current_state_id
      Request.set_request_action]. rewrite map_app. cbn [map]. apply last_snoc.
Qed.

(** C8. [find_request_allowed_action] returns the gated actions of all
    routes out of the request's current state, that is of [State.route] of
    the state [current_state_id] names, flattened in order with duplicates
    kept and each re-resolved by its id through the action service; a
    request that is not found gives RecordNotFound, one without a current
    state AttributeError; the store is not written and the answer is the
    same for every viewing user. *)
Theorem find_request_allowed_action_flattens
    (self : RequestService) (request_id user_id : Z) (st : Store) :
  find_request_allowed_action self request_id user_id st
  = (st, match request_repo_find_one request_id st with
         | None => Err RecordNotFound
         | Some request =>
             match Request.current_state_id request with
             | None => Err AttributeError
             | Some state_id =>
                 match current_state self state_id with
                 | None => Err AttributeError
                 | Some state => allowed_actions_spec self (State.route state)
                 end
             end
         end)
  /\ (forall viewer,
        find_request_allowed_action self request_id viewer st
        = find_request_allowed_action self request_id user_id st).
Proof.
  split; [|done].
  unfold find_request_allowed_action, bind, find_one_request, lift, get_route.
  destruct (request_repo_find_one request_id st) as [request|]; [|done].
  destruct (Request.current_state_id request) as [state_id|]; [|done].
  destruct (current_state self state_id) as [state|]; [|done].
  f_equal. rewrite extend_actions_spec. simpl.
  pose proof (resolve_actions_from self []
                (concat (map Route.action (State.route state)))) as H.
  simpl in H. rewrite H. unfold allowed_actions_spec.
  by destruct (traverse _ _).
Qed.

(** C9. [add_request_data], [add_request_note] and
    [add_request_stakeholder] never touch the request: the stored requests
    are as before, the request handed in is returned unchanged on success,
    and when validation fails the call raises InvalidInput before any
    repository is called, so nothing is created. *)
Theorem attachments_leave_request_alone
    (self : RequestService) (request : Request.t) (st : Store) :
  (forall value name data_type,
     attachment_outcome request
       (validate_request_data self (data_entity self request value name data_type))
       (fun s => length (request_data_table s)) st
       (add_request_data self request value name data_type st))
  /\ (forall note user_id note_type,
        attachment_outcome request
          (validate_request_note self (note_entity request note user_id note_type))
          (fun s => length (request_note_table s)) st
          (add_request_note self request note user_id note_type st))
  /\ (forall stakeholder_id stakeholder_type,
        attachment_outcome request
          (validate_request_stakeholder self
             (stakeholder_entity request stakeholder_id stakeholder_type))
          (fun s => length (request_stakeholder_table s)) st
          (add_request_stakeholder self request stakeholder_id stakeholder_type st)).
Proof.
  unfold attachment_outcome. split_and!; intros.
  - unfold add_request_data, bind, validate. fold (data_entity self request value name data_type).
    destruct (validate_request_data self _); cbn; [|done].
    split; [done|]. split; [done|]. rewrite length_app. simpl. lia.
  - unfold add_request_note, bind, validate. fold (note_entity request note user_id note_type).
    destruct (validate_request_note self _); cbn; [|done].
    split; [done|]. split; [done|]. rewrite length_app. simpl. lia.
  - unfold add_request_stakeholder, bind, validate.
    fold (stakeholder_entity request stakeholder_id stakeholder_type).
    destruct (validate_request_stakeholder self _); cbn; [|done].
    split; [done|]. split; [done|]. rewrite length_app. simpl. lia.
Qed.

(** C4, as the code has it. When the process, the user or the start state
    does not resolve, [create_request] fails before any write and the store
    is as before.  Once they resolve the Request is persisted first, under
    a fresh key and with no current state, and the attachments are
    validated and created after it: a call that then fails fails with
    InvalidInput and leaves that Request stored without a current state; a
    call that succeeds leaves it stored with the start state as current
    state, a data snapshot and a note. *)
Theorem create_request_persists_before_attaching
    (self : RequestService) (process_id user_id : Z) (title : string)
    (content : Payload) (note : string) (stakeholders : list Z)
    (entity_model : string) (entity_id : Z) (st : Store) :
  let out := create_request self process_id user_id title content note
               stakeholders entity_model entity_id st in
  match resolve_creation self process_id user_id with
  | Err e => out = (st, Err e)
  | Ok (process, user, state) =>
      let key := fresh ({[0]} ∪ dom (request_table st)) in
      request_table st !! key = None /\
      match snd out with
      | Ok r =>
          Request.id r = Some key /\
          Request.current_state_id r = Some (State.id state) /\
          request_table (fst out) !! key = Some r /\
          fully_initialized (fst out) r
      | Err e =>
          e = InvalidInput /\
          exists r, request_table (fst out) !! key = Some r /\
                    Request.id r = Some key /\
                    Request.current_state_id r = None
      end
  end.
Proof.
  cbv zeta.
  pose proof (create_request_cases self process_id user_id title content note
                stakeholders entity_model entity_id st) as H. cbv zeta in H.
  destruct (resolve_creation self process_id user_id) as [[[process user] state]|];
    [|done].
  split; [apply fresh_request_key|].
  destruct H as [[-> Htable] | (-> & Htable & Hdata & Hnote)].
  - split; [done|]. eexists. rewrite Htable, lookup_insert_eq. done.
  - rewrite Htable, lookup_insert_eq. split_and!; done.
Qed.

(** C4 fails as stated: with a note that does not validate, the call
    raises InvalidInput after the Request has been persisted, and the
    stored Request has no current state and no note. *)
Lemma create_request_leaves_partial_request :
  snd Scenario.failed_opening = Err InvalidInput
  /\ request_note_table (fst Scenario.failed_opening) = []
  /\ ~ no_partial_request empty_store (fst Scenario.failed_opening).
Proof.
  split_and!; [vm_compute; reflexivity..|].
  intros Hnone.
  assert (request_table (fst Scenario.failed_opening) !! 1
          = Some (created_request 1 "leave" (User.mk 1) (Process.mk 1) "" 0)) as Hrow
    by (vm_compute; reflexivity).
  destruct (Hnone _ _ Hrow) as [Hbefore | [[sid Hstate] _]].
  - vm_compute in Hbefore. discriminate.
  - vm_compute in Hstate. discriminate.
Qed.

(** C7, as the code has it. Provided the process graph is well formed (the
    start state named for a process is a state of that process, and every
    route out of a state leads to a state of the same process), every
    request in a store reached from the empty one through the service has
    a current state of its own process: this holds after creation and
    every commit preserves it. *)
Theorem current_state_stays_in_process (self : RequestService) (st : Store) :
  start_state_in_process self ->
  routes_stay_in_process self ->
  reachable self st ->
  process_invariant self st.
Proof. intros Hstart Hroutes Hreach. by apply reachable_process_invariant. Qed.

(** C7 fails as stated: nothing in the engine checks which process the
    target of a route belongs to.  With a route from a state of process 1
    to a state of process 2, a request of process 1 is moved to a state of
    process 2. *)
Lemma cross_process_route_breaks_invariant :
  reachable Scenario.svc_cross (fst Scenario.submitted_cross)
  /\ snd Scenario.submitted_cross = Ok Scenario.submitted_cross_request
  /\ Request.process_id Scenario.submitted_cross_request = 1
  /\ Request.current_state_id Scenario.submitted_cross_request = Some 9
  /\ current_state Scenario.svc_cross 9 = Some Scenario.D
  /\ State.process_id Scenario.D = 2
  /\ ~ process_invariant Scenario.svc_cross (fst Scenario.submitted_cross).
Proof.
  split_and!; try (vm_compute; reflexivity).
  - apply reach_commit, reach_create, reach_init.
  - intros Hinv.
    assert (request_table (fst Scenario.submitted_cross) !! 1
            = Some (Request.row Scenario.submitted_cross_request)) as Hrow
      by (vm_compute; reflexivity).
    destruct (Hinv 1 _ 9 Hrow eq_refl) as (state & Hstate & Hproc).
    vm_compute in Hstate. injection Hstate as <-. vm_compute in Hproc. discriminate.
Qed.

(** ** The claims on the worked process *)

Lemma commit_appends_marks_and_advances_witness :
  user_commit_action Scenario.svc 1 2 101 (fst Scenario.submitted)
    = (fst Scenario.approved, Ok Scenario.approved_request)
  /\ exists request user action routes route,
    request_repo_find_one 1 (fst Scenario.submitted) = Some request /\
    user_service_find_by_id Scenario.svc 2 = Ok user /\
    action_service_find_one Scenario.svc 101 = Ok action /\
    get_route Scenario.svc request = Ok routes /\
    (exists act, In act (gated (Action.id action) routes) /\
       should_user_commit_action Scenario.svc (User.id user) act = true) /\
    snd (scan_routes (Action.id action) routes ([], None)) = Some route /\
    Request.request_action Scenario.approved_request
      = map (RequestAction.set_status "done") (Request.request_action request)
        ++ [RequestAction.set_status "done" (entry_of request user action route)] /\
    length (Request.request_action Scenario.approved_request)
      = S (length (Request.request_action request)) /\
    Forall (fun entry => RequestAction.status entry = Some "done"%string)
      (Request.request_action Scenario.approved_request) /\
    Request.current_state_id Scenario.approved_request
      = Some (Route.next_state_id route) /\
    fst Scenario.approved
      = fst (request_repo_update Scenario.approved_request (fst Scenario.submitted)).
Proof.
  assert (user_commit_action Scenario.svc 1 2 101 (fst Scenario.submitted)
          = (fst Scenario.approved, Ok Scenario.approved_request)) as H
    by (vm_compute; reflexivity).
  split; [exact H|].
  exact (commit_appends_marks_and_advances Scenario.svc 1 2 101 _ _ _ H).
Defined.

Lemma unauthorized_commit_changes_nothing_witness :
  user_commit_action Scenario.svc 1 3 102 (fst Scenario.submitted)
    = (fst Scenario.submitted, Err (DontHaveRight 3))
  /\ create_request_action Scenario.svc (User.mk 3) Scenario.Reject
       (Request.row Scenario.submitted_request)
    = (Request.row Scenario.submitted_request, Err (DontHaveRight 3)).
Proof.
  apply (unauthorized_commit_changes_nothing Scenario.svc 1 3 102
           (fst Scenario.submitted) (Request.row Scenario.submitted_request)
           (User.mk 3) Scenario.Reject [Scenario.R2]);
    try (vm_compute; reflexivity).
  intros route act group Hroute Hact _ Hgroup.
  destruct Hroute as [<-|[]].
  destruct Hact as [<-|[<-|[]]]; destruct Hgroup as [<-|[]]; reflexivity.
Defined.


(** With both R1 and R1' gating Submit, the request ends in C, the target
    of R1', and the entry names route 4. *)
Example two_routes_last_wins :
  Request.current_state_id Scenario.submitted_two_routes_request = Some 3
  /\ map RequestAction.route_id
       (Request.request_action Scenario.submitted_two_routes_request) = [4].
Proof. split; reflexivity. Qed.

Lemma commit_advances_by_last_history_entry_witness :
  user_commit_action Scenario.svc 1 2 101 (fst Scenario.submitted)
    = (fst Scenario.approved, Ok Scenario.approved_request)
  /\ exists request user action appended entry route,
    request_repo_find_one 1 (fst Scenario.submitted) = Some request /\
    user_service_find_by_id Scenario.svc 2 = Ok user /\
    action_service_find_one Scenario.svc 101 = Ok action /\
    create_request_action Scenario.svc user action request = (appended, Ok entry) /\
    Request.request_action appended = Request.request_action request ++ [entry] /\
    (forall bound,
       snd (mark_done (Request.request_action appended) bound)
       = RequestAction.set_status "done" entry) /\
    last (Request.request_action Scenario.approved_request)
      = Some (RequestAction.set_status "done" entry) /\
    RequestAction.route_to_next_state entry = Some route /\
    Request.current_state_id Scenario.approved_request
      = Some (Route.next_state_id route).
Proof.
  assert (user_commit_action Scenario.svc 1 2 101 (fst Scenario.submitted)
          = (fst Scenario.approved, Ok Scenario.approved_request)) as H
    by (vm_compute; reflexivity).
  split; [exact H|].
  exact (commit_advances_by_last_history_entry Scenario.svc 1 2 101 _ _ _ H).
Defined.

(** At B the query lists Approve and Reject; at A', where both routes
    gate Submit, it lists Submit twice. *)
Lemma find_request_allowed_action_flattens_witness :
  find_request_allowed_action Scenario.svc 1 3 (fst Scenario.submitted)
  = (fst Scenario.submitted, Ok [Scenario.Approve; Scenario.Reject])
  /\ find_request_allowed_action Scenario.svc_two_routes 1 3 (fst Scenario.opened)
     = (fst Scenario.opened, Ok [Scenario.Submit; Scenario.Submit])
  /\ (forall viewer,
        find_request_allowed_action Scenario.svc 1 viewer (fst Scenario.submitted)
        = find_request_allowed_action Scenario.svc 1 3 (fst Scenario.submitted)).
Proof.
  destruct (find_request_allowed_action_flattens Scenario.svc 1 3
              (fst Scenario.submitted)) as [Hat_B Hviewers].
  destruct (find_request_allowed_action_flattens Scenario.svc_two_routes 1 3
              (fst Scenario.opened)) as [Hat_A _].
  split_and!.
  - rewrite Hat_B. vm_compute. reflexivity.
  - rewrite Hat_A. vm_compute. reflexivity.
  - exact Hviewers.
Defined.

Lemma scenario_start_state_in_process : start_state_in_process Scenario.svc.
Proof.
  intros process_id process start Hprocess Hstart.
  cbn -[Z.eqb] in Hprocess. unfold Scenario.lookup_by in Hprocess.
  cbn -[Z.eqb] in Hprocess.
  destruct (1 =? process_id); [|discriminate].
  injection Hprocess as <-.
  vm_compute in Hstart. injection Hstart as <-.
  exists Scenario.A. split; reflexivity.
Defined.

Lemma scenario_routes_stay_in_process : routes_stay_in_process Scenario.svc.
Proof.
  intros state_id state route Hstate Hroute.
  cbn -[Z.eqb] in Hstate.
  destruct (1 =? state_id); [injection Hstate as <-|].
  { destruct Hroute as [<-|[]]. exists Scenario.B. split; reflexivity. }
  destruct (2 =? state_id); [injection Hstate as <-|].
  { destruct Hroute as [<-|[]]. exists Scenario.C. split; reflexivity. }
  destruct (3 =? state_id); [injection Hstate as <-|discriminate].
  destruct Hroute.
Defined.

Lemma current_state_stays_in_process_witness :
  start_state_in_process Scenario.svc
  /\ routes_stay_in_process Scenario.svc
  /\ reachable Scenario.svc (fst Scenario.approved)
  /\ process_invariant Scenario.svc (fst Scenario.approved).
Proof.
  assert (reachable Scenario.svc (fst Scenario.approved)) as Hreach
    by apply reach_commit, reach_commit, reach_create, reach_init.
  split_and!;
    [exact scenario_start_state_in_process
    |exact scenario_routes_stay_in_process
    |exact Hreach|].
  exact (current_state_stays_in_process Scenario.svc _
           scenario_start_state_in_process scenario_routes_stay_in_process Hreach).
Defined.

(** ** The scenarios of the specification, run *)

(** U1 creates the request at A and commits Submit: the request is at B
    with one done entry (action Submit, route R1). *)
Example scenario_submit :
  Request.current_state_id Scenario.opened_request = Some 1
  /\ snd Scenario.submitted = Ok Scenario.submitted_request
  /\ Request.current_state_id Scenario.submitted_request = Some 2
  /\ map (fun entry => (RequestAction.action_id entry, RequestAction.route_id entry,
                        RequestAction.status entry))
       (Request.request_action Scenario.submitted_request)
     = [(100, 1, Some "done"%string)].
Proof. split_and!; vm_compute; reflexivity. Qed.

(** U2, member of the group Approve targets, commits Approve: the request
    is at C with two done entries. *)
Example scenario_approve :
  snd Scenario.approved = Ok Scenario.approved_request
  /\ Request.current_state_id Scenario.approved_request = Some 3
  /\ map (fun entry => (RequestAction.action_id entry, RequestAction.route_id entry,
                        RequestAction.status entry))
       (Request.request_action Scenario.approved_request)
     = [(100, 1, Some "done"%string); (101, 2, Some "done"%string)].
Proof. split_and!; vm_compute; reflexivity. Qed.

(** U3 tries Reject at B: forbidden, and the request stays at B with its
    single entry. *)
Example scenario_reject_forbidden :
  Scenario.rejected = (fst Scenario.submitted, Err (DontHaveRight 3))
  /\ request_repo_find_one 1 (fst Scenario.rejected)
     = Some (Request.row Scenario.submitted_request).
Proof. split; vm_compute; reflexivity. Qed.

(** At B the allowed actions are Approve and Reject whoever asks; of
    these U2 may commit both and U3 none. *)
Example scenario_allowed_actions :
  snd (find_request_allowed_action Scenario.svc 1 3 (fst Scenario.submitted))
    = Ok [Scenario.Approve; Scenario.Reject]
  /\ snd (find_request_allowed_action_for_specific_user Scenario.svc 1 1 2
            (fst Scenario.submitted))
    = Ok [Scenario.Approve; Scenario.Reject]
  /\ snd (find_request_allowed_action_for_specific_user Scenario.svc 1 1 3
            (fst Scenario.submitted))
    = Ok [].
Proof. split_and!; vm_compute; reflexivity. Qed.

(** The history of the request at C, in attachment order. *)
Example scenario_history :
  snd (find_request_actions 1 0 (fst Scenario.approved))
  = Ok (map RequestAction.row (Request.request_action Scenario.approved_request)).
Proof. vm_compute; reflexivity. Qed.

(** Were the history to end with a stored entry, the loop would leave
    [request_action] bound to it, and a stored entry has no route. *)
Example loop_variable_is_last_entry (stored created : RequestAction.t) :
  snd (mark_done [created; RequestAction.row stored] created)
  = RequestAction.set_status "done" (RequestAction.row stored)
  /\ RequestAction.route_to_next_state
       (snd (mark_done [created; RequestAction.row stored] created)) = None.
Proof. split; reflexivity. Qed.

(** * Further properties of the service *)

(** ** What the reachable stores look like *)

Lemma closed_row_fixed (entry : RequestAction.t) :
  RequestAction.status entry = Some "done"%string ->
  RequestAction.route_to_next_state entry = None ->
  RequestAction.row (closed entry) = entry.
Proof. destruct entry; cbn; by intros -> ->. Qed.

Lemma committed_row_history (request : Request.t) (user : User.t)
    (action : Action.t) (route : Route.t) :
  Request.request_action (Request.row (committed request user action route))
  = map (fun entry => RequestAction.row (closed entry)) (Request.request_action request)
    ++ [RequestAction.row (closed (entry_of request user action route))].
Proof.
  unfold committed.
  cbn [Request.row Request.request_action Request.set_current_state_id
         Request.set_request_action].
  by rewrite !map_app, map_map.
Qed.

Section StoreFacts.
Variable self : RequestService.

Lemma store_wf_same_table (st st' : Store) :
  request_table st' = request_table st ->
  keys_coherent st /\ history_closed st ->
  keys_coherent st' /\ history_closed st'.
Proof.
  intros Heq [Hkeys Hhist]. split.
  - intros key r. rewrite Heq. apply Hkeys.
  - intros key r entry. rewrite Heq. apply Hhist.
Qed.

Lemma store_wf_insert (st : Store) (key : Z) (r : Request.t) :
  keys_coherent st /\ history_closed st ->
  Request.id r = Some key ->
  (forall entry, In entry (Request.request_action r) ->
     RequestAction.status entry = Some "done"%string /\
     RequestAction.request_id entry = Some key /\
     RequestAction.route_to_next_state entry = None) ->
  keys_coherent (with_request_table (<[key := r]> (request_table st)) st)
  /\ history_closed (with_request_table (<[key := r]> (request_table st)) st).
Proof.
  intros [Hkeys Hhist] Hid Hentries. split.
  - intros key' r'. cbn [request_table with_request_table].
    rewrite lookup_insert. case_decide as Hk.
    + intros [= <-]. by subst.
    + apply Hkeys.
  - intros key' r' entry. cbn [request_table with_request_table].
    rewrite lookup_insert. case_decide as Hk.
    + intros [= <-]. subst. apply Hentries.
    + apply Hhist.
Qed.

(** What a successful commit stores, when the request is stored under its
    own id. *)
Lemma commit_stores (request_id user_id action_id : Z) (st st' : Store)
    (r' : Request.t) :
  keys_coherent st ->
  user_commit_action self request_id user_id action_id st = (st', Ok r') ->
  exists request user action routes route,
    request_repo_find_one request_id st = Some request /\
    user_service_find_by_id self user_id = Ok user /\
    action_service_find_one self action_id = Ok action /\
    get_route self request = Ok routes /\
    In route routes /\
    r' = committed request user action route /\
    st' = with_request_table (<[request_id := Request.row r']> (request_table st)) st.
Proof.
  intros Hkeys H. apply user_commit_action_ok in H
    as (request & user & action & routes & route & act
        & Hreq & Huser & Haction & Hroutes & Hin & Hact & Hlast & Hvalid & -> & ->).
  exists request, user, action, routes, route. split_and!; try done.
  - apply last_filter_split in Hlast as (before & after & -> & _ & _).
    apply in_or_app. right. by left.
  - unfold request_repo_update.
    assert (Request.id (committed request user action route) = Some request_id) as ->
      by exact (Hkeys _ _ Hreq).
    done.
Qed.

Lemma reachable_store_wf (st : Store) :
  reachable self st -> keys_coherent st /\ history_closed st.
Proof.
  induction 1 as [|st process_id user_id title content note stakeholders
                    entity_model entity_id _ IH
                  |st request_id user_id action_id _ IH
                  |st request value name data_type _ IH
                  |st request note user_id note_type _ IH
                  |st request stakeholder_id stakeholder_type _ IH].
  - split.
    + intros key r Hlookup. cbn [request_table empty_store] in Hlookup.
      by rewrite lookup_empty in Hlookup.
    + intros key r entry Hlookup. cbn [request_table empty_store] in Hlookup.
      by rewrite lookup_empty in Hlookup.
  - pose proof (create_request_cases self process_id user_id title content note
                  stakeholders entity_model entity_id st) as H. cbv zeta in H.
    destruct (resolve_creation self process_id user_id) as [[[process user] state]|];
      [|by rewrite H].
    destruct H as [[_ Htable] | (_ & Htable & _)].
    + apply (store_wf_same_table
               (with_request_table
                  (<[fresh ({[0]} ∪ dom (request_table st))
                     := created_request (fresh ({[0]} ∪ dom (request_table st)))
                          title user process entity_model entity_id]>
                     (request_table st)) st)); [done|].
      apply store_wf_insert; [done|done|]. by intros entry [].
    + apply (store_wf_same_table
               (with_request_table
                  (<[fresh ({[0]} ∪ dom (request_table st))
                     := Request.set_current_state_id (State.id state)
                          (created_request (fresh ({[0]} ∪ dom (request_table st)))
                             title user process entity_model entity_id)]>
                     (request_table st)) st)); [done|].
      apply store_wf_insert; [done|done|]. by intros entry [].
  - destruct (user_commit_action self request_id user_id action_id st)
      as [st' [r'|e]] eqn:Hout; cbn [fst].
    + destruct (commit_stores _ _ _ _ _ _ (proj1 IH) Hout)
        as (request & user & action & routes & route
            & Hreq & _ & _ & _ & _ & -> & ->).
      apply store_wf_insert; [done| |].
      * exact (proj1 IH _ _ Hreq).
      * intros entry. rewrite committed_row_history.
        intros [Hold | [<- | []]]%in_app_or.
        -- apply in_map_iff in Hold as (old & <- & Hold).
           destruct (proj2 IH _ _ _ Hreq Hold) as (Hstatus & Hrid & Hroute).
           by rewrite closed_row_fixed.
        -- split_and!; try done. cbn. exact (proj1 IH _ _ Hreq).
    + by rewrite (user_commit_action_err _ _ _ _ _ _ _ Hout).
  - rewrite add_request_data_eq. cbv zeta.
    destruct (validate_request_data self _); [|done].
    by apply (store_wf_same_table st).
  - rewrite add_request_note_eq. cbv zeta.
    destruct (validate_request_note self _); [|done].
    by apply (store_wf_same_table st).
  - rewrite add_request_stakeholder_eq. cbv zeta.
    destruct (validate_request_stakeholder self _); [|done].
    by apply (store_wf_same_table st).
Qed.

End StoreFacts.

(** X2. In every store the service can reach, no stored history entry is
    still 'active': every entry [find_request_actions] returns has status
    'done' and carries the id of the request asked for. *)
Theorem reachable_history_is_closed
    (self : RequestService) (st : Store) (request_id : Z)
    (history : list RequestAction.t) :
  reachable self st ->
  find_request_actions request_id 0 st = (st, Ok history) ->
  Forall (fun entry =>
            RequestAction.status entry = Some "done"%string /\
            RequestAction.request_id entry = Some request_id) history.
Proof.
  intros Hreach. unfold find_request_actions, bind, find_one_request, ret.
  destruct (request_repo_find_one request_id st) as [found|] eqn:Hfound; [|done].
  intros [= <-]. apply Forall_forall. intros entry Hentry%list_elem_of_In.
  destruct (proj2 (reachable_store_wf self st Hreach) _ _ _ Hfound Hentry)
    as (? & ? & _).
  done.
Qed.


(** X4. The stored history is append-only under commits: in a reachable
    store a successful commit leaves every earlier entry of the request's
    stored history as it was and adds exactly one entry at the end, closed
    and stamped with the request, the committing user and the committed
    action. *)
Theorem commit_appends_to_stored_history
    (self : RequestService) (request_id user_id action_id : Z)
    (st st' : Store) (r' : Request.t) :
  reachable self st ->
  user_commit_action self request_id user_id action_id st = (st', Ok r') ->
  exists before after user action entry,
    request_repo_find_one request_id st = Some before /\
    request_repo_find_one request_id st' = Some after /\
    user_service_find_by_id self user_id = Ok user /\
    action_service_find_one self action_id = Ok action /\
    Request.request_action after = Request.request_action before ++ [entry] /\
    RequestAction.request_id entry = Some request_id /\
    RequestAction.user_id entry = User.id user /\
    RequestAction.action_id entry = Action.id action /\
    RequestAction.status entry = Some "done"%string.
Proof.
  intros Hreach Hout.
  destruct (reachable_store_wf self st Hreach) as [Hkeys Hhist].
  destruct (commit_stores self _ _ _ _ _ _ Hkeys Hout)
    as (request & user & action & routes & route
        & Hreq & Huser & Haction & _ & _ & -> & ->).
  exists request, (Request.row (committed request user action route)), user, action,
    (RequestAction.row (closed (entry_of request user action route))).
  split_and!; try done.
  - unfold request_repo_find_one. cbn [request_table with_request_table].
    by rewrite lookup_insert_eq.
  - rewrite committed_row_history. f_equal.
    rewrite <- (map_id (Request.request_action request)) at 2.
    apply map_ext_in. intros old Hold.
    destruct (Hhist _ _ _ Hreq Hold) as (? & _ & ?). by apply closed_row_fixed.
  - cbn. exact (Hkeys _ _ Hreq).
Qed.

(** X5. A commit writes one request and nothing else: in a reachable
    store, whatever its outcome, the attachment tables and every other
    request are as before, and the request itself keeps its id, title,
    owner, process and entity link. *)
Theorem commit_touches_one_request
    (self : RequestService) (request_id user_id action_id : Z) (st : Store) :
  reachable self st ->
  let st' := fst (user_commit_action self request_id user_id action_id st) in
  request_data_table st' = request_data_table st
  /\ request_note_table st' = request_note_table st
  /\ request_stakeholder_table st' = request_stakeholder_table st
  /\ (forall other, other <> request_id ->
        request_repo_find_one other st' = request_repo_find_one other st)
  /\ (forall before,
        request_repo_find_one request_id st = Some before ->
        exists after,
          request_repo_find_one request_id st' = Some after /\
          Request.id after = Request.id before /\
          Request.title after = Request.title before /\
          Request.user_id after = Request.user_id before /\
          Request.process_id after = Request.process_id before /\
          Request.entity_model after = Request.entity_model before /\
          Request.entity_id after = Request.entity_id before).
Proof.
  intros Hreach. cbv zeta.
  destruct (user_commit_action self request_id user_id action_id st)
    as [st' [r'|e]] eqn:Hout; cbn [fst].
  - destruct (commit_stores self _ _ _ _ _ _
                (proj1 (reachable_store_wf self st Hreach)) Hout)
      as (request & user & action & routes & route & Hreq & _ & _ & _ & _ & -> & ->).
    split_and!; try done.
    + intros other Hother. unfold request_repo_find_one.
      cbn [request_table with_request_table]. by rewrite lookup_insert_ne.
    + intros before Hbefore. rewrite Hreq in Hbefore. injection Hbefore as <-.
      eexists. unfold request_repo_find_one. cbn [request_table with_request_table].
      rewrite lookup_insert_eq. done.
  - rewrite (user_commit_action_err _ _ _ _ _ _ _ Hout).
    split_and!; try done. intros before Hbefore. by exists before.
Qed.

(** X6. No transition applies in part: a commit that fails, for whatever
    reason (request, user or action not found, no current state, not
    allowed, invalid entry), leaves the store exactly as it was. *)
Theorem failed_commit_writes_nothing
    (self : RequestService) (request_id user_id action_id : Z)
    (st st' : Store) (e : Error) :
  user_commit_action self request_id user_id action_id st = (st', Err e) ->
  st' = st.
Proof. apply user_commit_action_err. Qed.

(** X7. An action that no route out of the current state gates cannot be
    committed by anybody: the commit fails with DontHaveRight whatever
    groups the user is in, and in particular every commit fails on a
    request whose current state has no outgoing route. *)
Theorem ungated_action_is_forbidden
    (self : RequestService) (request_id user_id action_id : Z) (st : Store)
    (request : Request.t) (user : User.t) (action : Action.t)
    (routes : list Route.t) :
  request_repo_find_one request_id st = Some request ->
  user_service_find_by_id self user_id = Ok user ->
  action_service_find_one self action_id = Ok action ->
  get_route self request = Ok routes ->
  Forall (fun route => gates (Action.id action) route = false) routes ->
  user_commit_action self request_id user_id action_id st
  = (st, Err (DontHaveRight (User.id user))).
Proof.
  intros Hreq Huser Haction Hroutes Hnone.
  unfold user_commit_action, bind, find_one_request, lift, raise.
  rewrite Hreq, Huser, Haction, create_request_action_eq, Hroutes.
  assert (gated (Action.id action) routes = []) as ->; [|done].
  apply gated_existsb_gates.
  clear Hroutes.
  induction Hnone as [|route rest Hroute _ IH]; cbn [List.filter]; [done|].
  by rewrite Hroute.
Qed.

(** X8. A request without a current state cannot move and cannot be
    queried: [find_request_allowed_action] raises AttributeError, every
    commit on it fails, with AttributeError once user and action resolve,
    and the store stays as it is. *)
Theorem request_without_state_is_stuck
    (self : RequestService) (request_id : Z) (st : Store) (request : Request.t) :
  request_repo_find_one request_id st = Some request ->
  Request.current_state_id request = None ->
  (forall viewer,
     find_request_allowed_action self request_id viewer st = (st, Err AttributeError))
  /\ (forall user_id action_id,
        exists e, user_commit_action self request_id user_id action_id st = (st, Err e))
  /\ (forall user_id action_id,
        is_ok (user_service_find_by_id self user_id) = true ->
        is_ok (action_service_find_one self action_id) = true ->
        user_commit_action self request_id user_id action_id st
        = (st, Err AttributeError)).
Proof.
  intros Hreq Hstate.
  assert (get_route self request = Err AttributeError) as Hroute
    by (unfold get_route; by rewrite Hstate).
  split_and!.
  - intros viewer. unfold find_request_allowed_action, bind, find_one_request, lift.
    by rewrite Hreq, Hroute.
  - intros user_id action_id.
    unfold user_commit_action, bind, find_one_request, lift, raise. rewrite Hreq.
    destruct (user_service_find_by_id self user_id) as [user|e]; [|by exists e].
    destruct (action_service_find_one self action_id) as [action|e]; [|by exists e].
    rewrite create_request_action_eq, Hroute. by exists AttributeError.
  - intros user_id action_id Huser Haction.
    unfold user_commit_action, bind, find_one_request, lift, raise. rewrite Hreq.
    destruct (user_service_find_by_id self user_id) as [user|e]; [|done].
    destruct (action_service_find_one self action_id) as [action|e]; [|done].
    by rewrite create_request_action_eq, Hroute.
Qed.

(** ** The query for one user and the commit agree *)

Lemma traverse_coherent {A} (f : A -> Result A) (l : list A) :
  (forall a, In a l -> f a = Ok a) -> traverse f l = Ok l.
Proof.
  induction l as [|a l IH]; intros Hf; simpl; [done|].
  rewrite (Hf a) by (by left). rewrite IH; [done|].
  intros b Hb. apply Hf. by right.
Qed.

Lemma allowed_actions_eq (self : RequestService) (request_id user_id : Z)
    (st : Store) (request : Request.t) (routes : list Route.t) :
  request_repo_find_one request_id st = Some request ->
  get_route self request = Ok routes ->
  find_request_allowed_action self request_id user_id st
  = (st, allowed_actions_spec self routes).
Proof.
  intros Hreq Hroutes.
  unfold find_request_allowed_action, bind, find_one_request, lift.
  rewrite Hreq, Hroutes. f_equal. rewrite extend_actions_spec. simpl.
  pose proof (resolve_actions_from self [] (concat (map Route.action routes))) as H.
  simpl in H. rewrite H. unfold allowed_actions_spec. by destruct (traverse _ _).
Qed.

Lemma In_flattened (routes : list Route.t) (act : Action.t) :
  In act (concat (map Route.action routes)) <->
  exists route, In route routes /\ In act (Route.action route).
Proof.
  rewrite in_concat. split.
  - intros (l & Hl & Hact). apply in_map_iff in Hl as (route & <- & Hroute). eauto.
  - intros (route & Hroute & Hact). exists (Route.action route). split; [|done].
    by apply in_map.
Qed.

(** X9. The query for one user and the commit agree.  When the action
    service resolves every action gated from the current state to that
    same action, the user resolves and the history entry validates, the
    actions [find_request_allowed_action_for_specific_user] lists are
    exactly the gated actions whose commit by that user succeeds. *)
Theorem listed_for_user_iff_committable
    (self : RequestService) (request_id viewer user_id : Z) (st : Store)
    (request : Request.t) (routes : list Route.t) (user : User.t) :
  request_repo_find_one request_id st = Some request ->
  get_route self request = Ok routes ->
  (forall route act,
     In route routes -> In act (Route.action route) ->
     action_service_find_one self (Action.id act) = Ok act) ->
  user_service_find_by_id self user_id = Ok user ->
  (forall action route,
     validate_request_action self (entry_of request user action route) = true) ->
  exists listed,
    find_request_allowed_action_for_specific_user self request_id viewer user_id st
    = (st, Ok listed)
    /\ forall action,
         In action listed <->
         In action (concat (map Route.action routes)) /\
         is_ok (snd (user_commit_action self request_id user_id (Action.id action) st))
         = true.
Proof.
  intros Hreq Hroutes Hcoherent Huser Hvalid.
  exists (List.filter (should_user_commit_action self (User.id user))
            (concat (map Route.action routes))).
  split.
  - unfold find_request_allowed_action_for_specific_user, bind, lift, ret.
    rewrite (allowed_actions_eq self _ _ _ _ _ Hreq Hroutes).
    unfold allowed_actions_spec. rewrite traverse_coherent, Huser; [done|].
    intros act (route & Hroute & Hact)%In_flattened. eauto.
  - intros action. rewrite filter_In. split.
    + intros [Hin Hallowed]. split; [done|].
      apply In_flattened in Hin as (route & Hroute & Hact).
      assert (In action (gated (Action.id action) routes)) as Hgated
        by (apply In_gated; eauto).
      destruct (allowed_has_turning_route _ _ _ Hgated) as (turning & Hturning).
      rewrite (proj2 (user_commit_action_ok self request_id user_id
                        (Action.id action) st
                        (fst (request_repo_update
                                (committed request user action turning) st))
                        (committed request user action turning))); [done|].
      exists request, user, action, routes, turning, action.
      split_and!; eauto.
    + intros [Hin Hok]. split; [done|].
      destruct (user_commit_action self request_id user_id (Action.id action) st)
        as [st' [r'|e]] eqn:Hout; [|done].
      apply user_commit_action_ok in Hout
        as (request0 & user0 & action0 & routes0 & route & act
            & Hreq0 & Huser0 & Haction0 & Hroutes0 & Hgated & Hallowed & _).
      rewrite Hreq in Hreq0. injection Hreq0 as <-.
      rewrite Huser in Huser0. injection Huser0 as <-.
      rewrite Hroutes in Hroutes0. injection Hroutes0 as <-.
      apply In_flattened in Hin as (route1 & Hroute1 & Hact1).
      rewrite (Hcoherent _ _ Hroute1 Hact1) in Haction0. injection Haction0 as <-.
      apply In_gated in Hgated as (route2 & Hroute2 & Hact2 & Hid).
      pose proof (Hcoherent _ _ Hroute2 Hact2) as Hsame.
      rewrite Hid, (Hcoherent _ _ Hroute1 Hact1) in Hsame.
      injection Hsame as <-. done.
Qed.

(** ** What [create_request] writes *)

Section CreationRows.
Variable self : RequestService.

Lemma with_request_stakeholder_table_same (st : Store) :
  with_request_stakeholder_table (request_stakeholder_table st ++ []) st = st.
Proof. destruct st. unfold with_request_stakeholder_table. cbn. by rewrite app_nil_r. Qed.

(** The stakeholder loop when every id validates: one row per id, in
    order. *)
Lemma add_stakeholders_all_valid (request : Request.t) (stakeholders : list Z)
    (st : Store) :
  Forall (stakeholder_ok self request) stakeholders ->
  add_stakeholders self request stakeholders st
  = (with_request_stakeholder_table
       (request_stakeholder_table st
        ++ stakeholder_rows request (length (request_stakeholder_table st)) stakeholders)
       st,
     Ok tt).
Proof.
  intros Hall. revert st.
  induction Hall as [|sid rest Hsid _ IH]; intros st; simpl.
  - by rewrite with_request_stakeholder_table_same.
  - unfold bind. rewrite add_request_stakeholder_eq. cbv zeta.
    unfold stakeholder_ok in Hsid. rewrite Hsid. rewrite IH.
    cbn [request_stakeholder_table with_request_stakeholder_table].
    rewrite length_app, Nat.add_1_r, <- app_assoc. done.
Qed.

(** The stakeholder loop stops at the first id that does not validate:
    the ids before it have their rows, no id after it is looked at. *)
Lemma add_stakeholders_first_invalid (request : Request.t)
    (good : list Z) (bad : Z) (rest : list Z) (st : Store) :
  Forall (stakeholder_ok self request) good ->
  validate_request_stakeholder self
    (stakeholder_entity request bad StakeholderType.user) = false ->
  add_stakeholders self request (good ++ bad :: rest) st
  = (with_request_stakeholder_table
       (request_stakeholder_table st
        ++ stakeholder_rows request (length (request_stakeholder_table st)) good)
       st,
     Err InvalidInput).
Proof.
  intros Hgood Hbad. revert st.
  induction Hgood as [|sid good Hsid _ IH]; intros st; simpl.
  - unfold bind. rewrite add_request_stakeholder_eq. cbv zeta. rewrite Hbad.
    by rewrite with_request_stakeholder_table_same.
  - unfold bind. rewrite add_request_stakeholder_eq. cbv zeta.
    unfold stakeholder_ok in Hsid. rewrite Hsid. rewrite IH.
    cbn [request_stakeholder_table with_request_stakeholder_table].
    rewrite length_app, Nat.add_1_r, <- app_assoc. done.
Qed.

(** Every list of ids is all valid or has a first invalid id. *)
Lemma stakeholders_split (request : Request.t) (stakeholders : list Z) :
  Forall (stakeholder_ok self request) stakeholders
  \/ exists good bad rest,
       stakeholders = good ++ bad :: rest /\
       Forall (stakeholder_ok self request) good /\
       validate_request_stakeholder self
         (stakeholder_entity request bad StakeholderType.user) = false.
Proof.
  induction stakeholders as [|sid rest IH]; [by left|].
  destruct (validate_request_stakeholder self
              (stakeholder_entity request sid StakeholderType.user)) eqn:Hsid.
  - destruct IH as [Hall | (good & bad & rest' & -> & Hgood & Hbad)].
    + left. by constructor.
    + right. exists (sid :: good), bad, rest'. split_and!; try done. by constructor.
  - right. by exists [], sid, rest.
Qed.

(** [create_request] step by step: the three lookups, the persisted
    request, then each attachment in turn, then the start state. *)
Lemma create_request_steps (process_id user_id : Z) (title : string)
    (content : Payload) (note : string) (stakeholders : list Z)
    (entity_model : string) (entity_id : Z) (st : Store) :
  create_request self process_id user_id title content note stakeholders
    entity_model entity_id st
  = match resolve_creation self process_id user_id with
    | Err e => (st, Err e)
    | Ok (process, user, state) =>
        let key := fresh ({[0]} ∪ dom (request_table st)) in
        let r0 := created_request key title user process entity_model entity_id in
        let st0 := with_request_table (<[key := r0]> (request_table st)) st in
        let d := data_entity self r0 content entity_model DataType.json in
        if validate_request_data self d
        then
          let st1 :=
            with_request_data_table
              (request_data_table st
               ++ [RequestData.set_id (Z.of_nat (length (request_data_table st)) + 1) d])
              st0 in
          let n := note_entity r0 note user_id NoteType.user_note in
          if validate_request_note self n
          then
            let st2 :=
              with_request_note_table
                (request_note_table st
                 ++ [RequestNote.set_id (Z.of_nat (length (request_note_table st)) + 1) n])
                st1 in
            match add_stakeholders self r0 stakeholders st2 with
            | (st3, Ok _) =>
                request_repo_update
                  (Request.set_current_state_id (State.id state) r0) st3
            | (st3, Err e) => (st3, Err e)
            end
          else (st1, Err InvalidInput)
        else (st0, Err InvalidInput)
    end.
Proof.
  unfold create_request, resolve_creation, bind, lift.
  destruct (process_service_find_one self process_id) as [process|]; [|done].
  destruct (user_service_find_by_id self user_id) as [user|]; [|done].
  destruct (process_service_find_start_point self _) as [state|]; [|done].
  unfold request_repo_create.
  fold (created_request (fresh ({[0]} ∪ dom (request_table st))) title user process
          entity_model entity_id).
  cbv zeta. rewrite add_request_data_eq. cbv zeta.
  cbn [request_data_table with_request_table].
  destruct (validate_request_data self _); [|done].
  rewrite add_request_note_eq. cbv zeta.
  cbn [request_note_table with_request_data_table with_request_table].
  destruct (validate_request_note self _); [|done].
  by destruct (add_stakeholders self _ stakeholders _) as [st3 [[]|e]].
Qed.

End CreationRows.

Lemma stakeholder_rows_id (r1 r2 : Request.t) (n : nat) (stakeholders : list Z) :
  Request.id r1 = Request.id r2 ->
  stakeholder_rows r1 n stakeholders = stakeholder_rows r2 n stakeholders.
Proof.
  intros Hid. revert n. induction stakeholders as [|sid rest IH]; intros n; simpl.
  - done.
  - unfold stakeholder_entity. by rewrite Hid, IH.
Qed.

(** X10. What a successful [create_request] has written: the request,
    under a key no request had, owned by the resolved user and process,
    at the start state, with no history; exactly one data row named after
    the entity model holding the JSON text of the content; exactly one
    user note by the creator; and one stakeholder row of kind 'user' per
    id handed in, in their order. *)
Theorem create_request_success_rows
    (self : RequestService) (process_id user_id : Z) (title : string)
    (content : Payload) (note : string) (stakeholders : list Z)
    (entity_model : string) (entity_id : Z) (st st' : Store) (r : Request.t) :
  create_request self process_id user_id title content note stakeholders
    entity_model entity_id st = (st', Ok r) ->
  exists process user state key,
    resolve_creation self process_id user_id = Ok (process, user, state) /\
    request_repo_find_one key st = None /\
    r = Request.mk (Some key) title (User.id user) (Process.id process)
          (Some (State.id state)) (Some "active"%string) entity_model entity_id [] /\
    request_table st' = <[key := r]> (request_table st) /\
    request_data_table st'
    = request_data_table st
      ++ [RequestData.mk (Some (Z.of_nat (length (request_data_table st)) + 1))
            (Some key) DataType.json (Some "active"%string) entity_model
            (Dumped (json_dumps self content))] /\
    request_note_table st'
    = request_note_table st
      ++ [RequestNote.mk (Some (Z.of_nat (length (request_note_table st)) + 1))
            user_id (Some key) NoteType.user_note (Some "active"%string) note] /\
    request_stakeholder_table st'
    = request_stakeholder_table st
      ++ stakeholder_rows r (length (request_stakeholder_table st)) stakeholders.
Proof.
  rewrite create_request_steps.
  destruct (resolve_creation self process_id user_id) as [[[process user] state]|];
    [|done].
  cbv zeta.
  set (key := fresh ({[0]} ∪ dom (request_table st))).
  set (r0 := created_request key title user process entity_model entity_id).
  destruct (validate_request_data self _); [|done].
  destruct (validate_request_note self _); [|done].
  destruct (stakeholders_split self r0 stakeholders)
    as [Hall | (good & bad & rest & -> & Hgood & Hbad)].
  - rewrite (add_stakeholders_all_valid self r0 stakeholders _ Hall).
    unfold request_repo_update. cbn. intros [= <- <-].
    exists process, user, state, key. split_and!; try done.
    + apply fresh_request_key.
    + cbn. by rewrite insert_insert_eq.
    + cbn [request_stakeholder_table with_request_table
             with_request_stakeholder_table].
      f_equal. by apply stakeholder_rows_id.
  - by rewrite (add_stakeholders_first_invalid self r0 good bad rest _ Hgood Hbad).
Qed.

(** X11. [create_request] never disturbs what is stored: whatever its
    outcome, every request stored before is stored unchanged after, and
    each attachment table still begins with the rows it had. *)
Theorem create_request_keeps_existing
    (self : RequestService) (process_id user_id : Z) (title : string)
    (content : Payload) (note : string) (stakeholders : list Z)
    (entity_model : string) (entity_id : Z) (st : Store)
    (key : Z) (r : Request.t) :
  request_repo_find_one key st = Some r ->
  let st' := fst (create_request self process_id user_id title content note
                    stakeholders entity_model entity_id st) in
  request_repo_find_one key st' = Some r
  /\ (exists rows, request_data_table st' = request_data_table st ++ rows)
  /\ (exists rows, request_note_table st' = request_note_table st ++ rows)
  /\ (exists rows,
        request_stakeholder_table st' = request_stakeholder_table st ++ rows).
Proof.
  intros Hstored. cbv zeta. rewrite create_request_steps.
  destruct (resolve_creation self process_id user_id) as [[[process user] state]|].
  2:{ cbn [fst]. split_and!; [done|by exists []; rewrite app_nil_r..]. }
  cbv zeta.
  set (fresh_key := fresh ({[0]} ∪ dom (request_table st))).
  set (r0 := created_request fresh_key title user process entity_model entity_id).
  assert (fresh_key <> key) as Hfresh.
  { intros Heq. pose proof (fresh_request_key st) as Hnone.
    fold fresh_key in Hnone. rewrite Heq in Hnone.
    unfold request_repo_find_one in Hstored. congruence. }
  assert (forall t, (<[fresh_key := t]> (request_table st)) !! key = Some r) as Hkeep
    by (intros t; by rewrite lookup_insert_ne).
  destruct (validate_request_data self _).
  2:{ cbn. split_and!; [apply Hkeep|by exists []; rewrite app_nil_r..]. }
  destruct (validate_request_note self _).
  2:{ cbn. split_and!; [apply Hkeep|by eexists|by exists []; rewrite app_nil_r..]. }
  destruct (stakeholders_split self r0 stakeholders)
    as [Hall | (good & bad & rest & -> & Hgood & Hbad)].
  - rewrite (add_stakeholders_all_valid self r0 stakeholders _ Hall).
    unfold request_repo_update. cbn.
    split_and!; [|by eexists..].
    unfold request_repo_find_one. cbn. rewrite insert_insert_eq. apply Hkeep.
  - rewrite (add_stakeholders_first_invalid self r0 good bad rest _ Hgood Hbad).
    cbn. split_and!; [apply Hkeep|by eexists..].
Qed.

(** X12. [create_request] stops at the first stakeholder that does not
    validate and keeps what it wrote until then: the call fails with
    InvalidInput, the request stays stored without a current state, data
    row and note are there, the stakeholders before the invalid one have
    their rows, and those after it have none. *)
Theorem create_request_stops_at_invalid_stakeholder
    (self : RequestService) (process_id user_id : Z) (title : string)
    (content : Payload) (note : string) (good : list Z) (bad : Z) (rest : list Z)
    (entity_model : string) (entity_id : Z) (st : Store)
    (process : Process.t) (user : User.t) (state : State.t) :
  resolve_creation self process_id user_id = Ok (process, user, state) ->
  let key := fresh ({[0]} ∪ dom (request_table st)) in
  let r0 := created_request key title user process entity_model entity_id in
  validate_request_data self (data_entity self r0 content entity_model DataType.json)
  = true ->
  validate_request_note self (note_entity r0 note user_id NoteType.user_note) = true ->
  Forall (stakeholder_ok self r0) good ->
  validate_request_stakeholder self
    (stakeholder_entity r0 bad StakeholderType.user) = false ->
  exists st',
    create_request self process_id user_id title content note (good ++ bad :: rest)
      entity_model entity_id st = (st', Err InvalidInput) /\
    request_repo_find_one key st' = Some r0 /\
    Request.current_state_id r0 = None /\
    length (request_data_table st') = S (length (request_data_table st)) /\
    length (request_note_table st') = S (length (request_note_table st)) /\
    request_stakeholder_table st'
    = request_stakeholder_table st
      ++ stakeholder_rows r0 (length (request_stakeholder_table st)) good.
Proof.
  intros Hresolve key r0 Hdata Hnote Hgood Hbad.
  rewrite create_request_steps, Hresolve. cbv zeta.
  fold key. fold r0. rewrite Hdata, Hnote.
  rewrite (add_stakeholders_first_invalid self r0 good bad rest _ Hgood Hbad).
  eexists. split; [reflexivity|].
  unfold request_repo_find_one. cbn.
  rewrite lookup_insert_eq, !length_app. cbn.
  split_and!; try done; lia.
Qed.


(** X14. The query follows the move: in a reachable store, right after a
    successful commit [find_request_allowed_action] answers, for every
    viewer, with the re-resolved actions of the routes out of the state
    the request has moved to, and with AttributeError when the turning
    route points at a state that does not exist. *)
Theorem query_follows_commit
    (self : RequestService) (request_id user_id action_id : Z)
    (st st' : Store) (r' : Request.t) :
  reachable self st ->
  user_commit_action self request_id user_id action_id st = (st', Ok r') ->
  exists target_id,
    Request.current_state_id r' = Some target_id /\
    forall viewer,
      find_request_allowed_action self request_id viewer st'
      = (st', match current_state self target_id with
              | Some target => allowed_actions_spec self (State.route target)
              | None => Err AttributeError
              end).
Proof.
  intros Hreach Hout.
  destruct (commit_stores self _ _ _ _ _ _
              (proj1 (reachable_store_wf self st Hreach)) Hout)
    as (request & user & action & routes & route & _ & _ & _ & _ & _ & -> & ->).
  exists (Route.next_state_id route). split; [done|]. intros viewer.
  set (st' := with_request_table _ st).
  assert (request_repo_find_one request_id st'
          = Some (Request.row (committed request user action route))) as Hfound.
  { unfold request_repo_find_one, st'. cbn [request_table with_request_table].
    by rewrite lookup_insert_eq. }
  destruct (current_state self (Route.next_state_id route)) as [target|] eqn:Htarget.
  - apply (allowed_actions_eq self _ _ _ _ _ Hfound).
    unfold get_route. cbn. by rewrite Htarget.
  - unfold find_request_allowed_action, bind, find_one_request, lift.
    rewrite Hfound. unfold get_route. cbn. by rewrite Htarget.
Qed.

(** X15. [is_accessible] is monotone in the time the token was issued: a
    token that is accepted stays accepted for every later issue time, and
    a token issued exactly at [denied_before] is accepted. *)
Theorem is_accessible_later_token
    {Time : Type} (time_to_int : Time -> Z)
    (find_for_token_validation : Z -> list Z -> option (AccessPolicy.t Time))
    (user_id : Z) (role_ids : list Z) (token_iat_int later : Z) :
  fst (is_accessible time_to_int find_for_token_validation user_id role_ids
         token_iat_int) = true ->
  token_iat_int <= later ->
  is_accessible time_to_int find_for_token_validation user_id role_ids later
  = (true, "ok"%string)
  /\ (forall checker,
        find_for_token_validation user_id role_ids = Some checker ->
        is_accessible time_to_int find_for_token_validation user_id role_ids
          (time_to_int (AccessPolicy.denied_before checker))
        = (true, "ok"%string)).
Proof.
  unfold is_accessible. intros Haccepted Hlater. split.
  - destruct (find_for_token_validation user_id role_ids) as [checker|]; [|done].
    destruct (time_to_int _ >? token_iat_int) eqn:Hdenied; [done|].
    assert ((time_to_int (AccessPolicy.denied_before checker) >? later) = false) as ->;
      [|done].
    rewrite Z.gtb_ltb, Z.ltb_ge in Hdenied |- *. lia.
  - intros checker ->. by rewrite Z.gtb_ltb, Z.ltb_irrefl.
Qed.

(** ** The further properties on the worked process *)

Lemma submitted_reachable : reachable Scenario.svc (fst Scenario.submitted).
Proof. apply reach_commit, reach_create, reach_init. Defined.

Lemma approved_reachable : reachable Scenario.svc (fst Scenario.approved).
Proof. apply reach_commit, submitted_reachable. Defined.

Lemma approve_commit :
  user_commit_action Scenario.svc 1 2 101 (fst Scenario.submitted)
  = (fst Scenario.approved, Ok Scenario.approved_request).
Proof. vm_compute; reflexivity. Defined.

Lemma reachable_history_is_closed_witness :
  reachable Scenario.svc (fst Scenario.approved)
  /\ find_request_actions 1 0 (fst Scenario.approved)
     = (fst Scenario.approved,
        Ok (map RequestAction.row (Request.request_action Scenario.approved_request)))
  /\ Forall (fun entry =>
               RequestAction.status entry = Some "done"%string /\
               RequestAction.request_id entry = Some 1)
       (map RequestAction.row (Request.request_action Scenario.approved_request)).
Proof.
  assert (find_request_actions 1 0 (fst Scenario.approved)
          = (fst Scenario.approved,
             Ok (map RequestAction.row
                   (Request.request_action Scenario.approved_request)))) as H
    by (vm_compute; reflexivity).
  split_and!; [exact approved_reachable | exact H |].
  exact (reachable_history_is_closed Scenario.svc _ 1 _ approved_reachable H).
Defined.


Lemma commit_appends_to_stored_history_witness :
  reachable Scenario.svc (fst Scenario.submitted)
  /\ user_commit_action Scenario.svc 1 2 101 (fst Scenario.submitted)
     = (fst Scenario.approved, Ok Scenario.approved_request)
  /\ exists before after user action entry,
       request_repo_find_one 1 (fst Scenario.submitted) = Some before /\
       request_repo_find_one 1 (fst Scenario.approved) = Some after /\
       user_service_find_by_id Scenario.svc 2 = Ok user /\
       action_service_find_one Scenario.svc 101 = Ok action /\
       Request.request_action after = Request.request_action before ++ [entry] /\
       RequestAction.request_id entry = Some 1 /\
       RequestAction.user_id entry = User.id user /\
       RequestAction.action_id entry = Action.id action /\
       RequestAction.status entry = Some "done"%string.
Proof.
  split_and!; [exact submitted_reachable | exact approve_commit |].
  exact (commit_appends_to_stored_history Scenario.svc 1 2 101 _ _ _
           submitted_reachable approve_commit).
Defined.

Lemma commit_touches_one_request_witness :
  reachable Scenario.svc (fst Walkthrough.second_opening)
  /\ let st := fst Walkthrough.second_opening in
     let st' := fst (user_commit_action Scenario.svc 2 1 100 st) in
     request_data_table st' = request_data_table st
     /\ request_note_table st' = request_note_table st
     /\ request_stakeholder_table st' = request_stakeholder_table st
     /\ (forall other, other <> 2 ->
           request_repo_find_one other st' = request_repo_find_one other st)
     /\ (forall before,
           request_repo_find_one 2 st = Some before ->
           exists after,
             request_repo_find_one 2 st' = Some after /\
             Request.id after = Request.id before /\
             Request.title after = Request.title before /\
             Request.user_id after = Request.user_id before /\
             Request.process_id after = Request.process_id before /\
             Request.entity_model after = Request.entity_model before /\
             Request.entity_id after = Request.entity_id before).
Proof.
  assert (reachable Scenario.svc (fst Walkthrough.second_opening)) as Hreach
    by apply reach_create, approved_reachable.
  split; [exact Hreach|].
  exact (commit_touches_one_request Scenario.svc 2 1 100 _ Hreach).
Defined.

Lemma failed_commit_writes_nothing_witness :
  user_commit_action Scenario.svc 1 3 102 (fst Scenario.submitted)
  = (fst Scenario.rejected, Err (DontHaveRight 3))
  /\ fst Scenario.rejected = fst Scenario.submitted.
Proof.
  assert (user_commit_action Scenario.svc 1 3 102 (fst Scenario.submitted)
          = (fst Scenario.rejected, Err (DontHaveRight 3))) as H
    by (vm_compute; reflexivity).
  split; [exact H|].
  exact (failed_commit_writes_nothing Scenario.svc 1 3 102 _ _ _ H).
Defined.

Lemma ungated_action_is_forbidden_witness :
  request_repo_find_one 1 (fst Scenario.approved)
  = Some (Request.row Scenario.approved_request)
  /\ get_route Scenario.svc (Request.row Scenario.approved_request) = Ok []
  /\ user_commit_action Scenario.svc 1 2 101 (fst Scenario.approved)
     = (fst Scenario.approved, Err (DontHaveRight 2)).
Proof.
  split_and!; [vm_compute; reflexivity..|].
  apply (ungated_action_is_forbidden Scenario.svc 1 2 101 (fst Scenario.approved)
           (Request.row Scenario.approved_request) (User.mk 2) Scenario.Approve []);
    try (vm_compute; reflexivity).
  constructor.
Defined.

Lemma request_without_state_is_stuck_witness :
  request_repo_find_one 1 (fst Scenario.failed_opening)
  = Some (created_request 1 "leave" (User.mk 1) (Process.mk 1) "" 0)
  /\ (forall viewer,
        find_request_allowed_action Scenario.svc 1 viewer (fst Scenario.failed_opening)
        = (fst Scenario.failed_opening, Err AttributeError))
  /\ (forall user_id action_id,
        exists e,
          user_commit_action Scenario.svc 1 user_id action_id
            (fst Scenario.failed_opening)
          = (fst Scenario.failed_opening, Err e))
  /\ (forall user_id action_id,
        is_ok (user_service_find_by_id Scenario.svc user_id) = true ->
        is_ok (action_service_find_one Scenario.svc action_id) = true ->
        user_commit_action Scenario.svc 1 user_id action_id
          (fst Scenario.failed_opening)
        = (fst Scenario.failed_opening, Err AttributeError)).
Proof.
  assert (request_repo_find_one 1 (fst Scenario.failed_opening)
          = Some (created_request 1 "leave" (User.mk 1) (Process.mk 1) "" 0)) as H
    by (vm_compute; reflexivity).
  split; [exact H|].
  exact (request_without_state_is_stuck Scenario.svc 1 _ _ H eq_refl).
Defined.

Lemma listed_for_user_iff_committable_witness :
  request_repo_find_one 1 (fst Scenario.submitted)
  = Some (Request.row Scenario.submitted_request)
  /\ get_route Scenario.svc (Request.row Scenario.submitted_request) = Ok [Scenario.R2]
  /\ user_service_find_by_id Scenario.svc 2 = Ok (User.mk 2)
  /\ exists listed,
       find_request_allowed_action_for_specific_user Scenario.svc 1 1 2
         (fst Scenario.submitted)
       = (fst Scenario.submitted, Ok listed)
       /\ forall action,
            In action listed <->
            In action (concat (map Route.action [Scenario.R2])) /\
            is_ok (snd (user_commit_action Scenario.svc 1 2 (Action.id action)
                          (fst Scenario.submitted)))
            = true.
Proof.
  split_and!; [vm_compute; reflexivity..|].
  apply (listed_for_user_iff_committable Scenario.svc 1 1 2 (fst Scenario.submitted)
           (Request.row Scenario.submitted_request) [Scenario.R2] (User.mk 2));
    try (vm_compute; reflexivity).
  intros route act Hroute Hact. destruct Hroute as [<-|[]].
  destruct Hact as [<-|[<-|[]]]; reflexivity.
Defined.

Lemma create_request_success_rows_witness :
  create_request Scenario.svc 1 1 "leave" [] "please" [2] "" 0 empty_store
  = (fst Scenario.opened, Ok Scenario.opened_request)
  /\ exists process user state key,
       resolve_creation Scenario.svc 1 1 = Ok (process, user, state) /\
       request_repo_find_one key empty_store = None /\
       Scenario.opened_request
       = Request.mk (Some key) "leave" (User.id user) (Process.id process)
           (Some (State.id state)) (Some "active"%string) "" 0 [] /\
       request_table (fst Scenario.opened)
       = <[key := Scenario.opened_request]> (request_table empty_store) /\
       request_data_table (fst Scenario.opened)
       = request_data_table empty_store
         ++ [RequestData.mk
               (Some (Z.of_nat (length (request_data_table empty_store)) + 1))
               (Some key) DataType.json (Some "active"%string) ""
               (Dumped (json_dumps Scenario.svc []))] /\
       request_note_table (fst Scenario.opened)
       = request_note_table empty_store
         ++ [RequestNote.mk
               (Some (Z.of_nat (length (request_note_table empty_store)) + 1))
               1 (Some key) NoteType.user_note (Some "active"%string) "please"] /\
       request_stakeholder_table (fst Scenario.opened)
       = request_stakeholder_table empty_store
         ++ stakeholder_rows Scenario.opened_request
              (length (request_stakeholder_table empty_store)) [2].
Proof.
  assert (create_request Scenario.svc 1 1 "leave" [] "please" [2] "" 0 empty_store
          = (fst Scenario.opened, Ok Scenario.opened_request)) as H
    by (vm_compute; reflexivity).
  split; [exact H|].
  exact (create_request_success_rows Scenario.svc 1 1 "leave" [] "please" [2] "" 0
           _ _ _ H).
Defined.

Lemma create_request_keeps_existing_witness :
  request_repo_find_one 1 (fst Scenario.approved)
  = Some (Request.row Scenario.approved_request)
  /\ request_repo_find_one 1 (fst Walkthrough.second_opening)
     = Some (Request.row Scenario.approved_request)
  /\ (exists rows,
        request_data_table (fst Walkthrough.second_opening)
        = request_data_table (fst Scenario.approved) ++ rows)
  /\ (exists rows,
        request_note_table (fst Walkthrough.second_opening)
        = request_note_table (fst Scenario.approved) ++ rows)
  /\ (exists rows,
        request_stakeholder_table (fst Walkthrough.second_opening)
        = request_stakeholder_table (fst Scenario.approved) ++ rows).
Proof.
  assert (request_repo_find_one 1 (fst Scenario.approved)
          = Some (Request.row Scenario.approved_request)) as H
    by (vm_compute; reflexivity).
  split; [exact H|].
  exact (create_request_keeps_existing Scenario.svc 1 2 "travel" [] "two days" [1; 3]
           "trip" 7 _ 1 _ H).
Defined.

Lemma create_request_stops_at_invalid_stakeholder_witness :
  resolve_creation Walkthrough.strict 1 1
  = Ok (Process.mk 1, User.mk 1, Scenario.A)
  /\ exists st',
       create_request Walkthrough.strict 1 1 "leave" [] "please" ([2; 3] ++ 0 :: [5])
         "" 0 empty_store = (st', Err InvalidInput) /\
       request_repo_find_one (fresh ({[0]} ∪ dom (request_table empty_store))) st'
       = Some (created_request (fresh ({[0]} ∪ dom (request_table empty_store)))
                 "leave" (User.mk 1) (Process.mk 1) "" 0) /\
       Request.current_state_id
         (created_request (fresh ({[0]} ∪ dom (request_table empty_store)))
            "leave" (User.mk 1) (Process.mk 1) "" 0) = None /\
       length (request_data_table st') = S (length (request_data_table empty_store)) /\
       length (request_note_table st') = S (length (request_note_table empty_store)) /\
       request_stakeholder_table st'
       = request_stakeholder_table empty_store
         ++ stakeholder_rows
              (created_request (fresh ({[0]} ∪ dom (request_table empty_store)))
                 "leave" (User.mk 1) (Process.mk 1) "" 0)
              (length (request_stakeholder_table empty_store)) [2; 3].
Proof.
  split; [vm_compute; reflexivity|].
  apply (create_request_stops_at_invalid_stakeholder Walkthrough.strict 1 1 "leave" []
           "please" [2; 3] 0 [5] "" 0 empty_store (Process.mk 1) (User.mk 1) Scenario.A);
    try (vm_compute; reflexivity).
  repeat constructor.
Defined.

(** Of the stakeholders 2, 3, 0, 5 exactly the first two have a row. *)
Example half_attached_rows :
  snd Walkthrough.half_attached = Err InvalidInput
  /\ map RequestStakeholder.stakeholder_id
       (request_stakeholder_table (fst Walkthrough.half_attached)) = [2; 3].
Proof. split; vm_compute; reflexivity. Qed.


Lemma query_follows_commit_witness :
  reachable Scenario.svc (fst Scenario.submitted)
  /\ user_commit_action Scenario.svc 1 2 101 (fst Scenario.submitted)
     = (fst Scenario.approved, Ok Scenario.approved_request)
  /\ exists target_id,
       Request.current_state_id Scenario.approved_request = Some target_id /\
       forall viewer,
         find_request_allowed_action Scenario.svc 1 viewer (fst Scenario.approved)
         = (fst Scenario.approved,
            match current_state Scenario.svc target_id with
            | Some target => allowed_actions_spec Scenario.svc (State.route target)
            | None => Err AttributeError
            end).
Proof.
  split_and!; [exact submitted_reachable | exact approve_commit |].
  exact (query_follows_commit Scenario.svc 1 2 101 _ _ _
           submitted_reachable approve_commit).
Defined.

Lemma is_accessible_later_token_witness :
  fst (is_accessible (fun t : Z => t) Walkthrough.policies 1 [] 600) = true
  /\ 600 <= 700
  /\ is_accessible (fun t : Z => t) Walkthrough.policies 1 [] 700 = (true, "ok"%string)
  /\ (forall checker,
        Walkthrough.policies 1 [] = Some checker ->
        is_accessible (fun t : Z => t) Walkthrough.policies 1 []
          (AccessPolicy.denied_before checker)
        = (true, "ok"%string)).
Proof.
  assert (fst (is_accessible (fun t : Z => t) Walkthrough.policies 1 [] 600) = true)
    as H by reflexivity.
  assert (600 <= 700) as Hle by lia.
  split_and!; [exact H | exact Hle | |];
    apply (is_accessible_later_token (fun t : Z => t) Walkthrough.policies 1 [] 600 700
             H Hle).
Defined.

(** A token issued before the policy's time is refused with its note. *)
Example is_accessible_denied :
  is_accessible (fun t : Z => t) Walkthrough.policies 1 [] 499
  = (false, "password changed"%string)
  /\ is_accessible (fun t : Z => t) Walkthrough.policies 2 [] 0 = (true, "ok"%string).
Proof. split; reflexivity. Qed.

(** ** The status of a request *)

Lemma reachable_status_active (self : RequestService) (st : Store) :
  reachable self st ->
  forall key r,
    request_table st !! key = Some r -> Request.status r = Some "active"%string.
Proof.
  induction 1 as [|st process_id user_id title content note stakeholders
                    entity_model entity_id Hreach IH
                  |st request_id user_id action_id Hreach IH
                  |st request value name data_type _ IH
                  |st request note user_id note_type _ IH
                  |st request stakeholder_id stakeholder_type _ IH].
  - intros key r Hlookup. cbn [request_table empty_store] in Hlookup.
    by rewrite lookup_empty in Hlookup.
  - pose proof (create_request_cases self process_id user_id title content note
                  stakeholders entity_model entity_id st) as H. cbv zeta in H.
    destruct (resolve_creation self process_id user_id) as [[[process user] state]|];
      [|by rewrite H].
    intros key r.
    destruct H as [[_ ->] | (_ & -> & _)]; rewrite lookup_insert; case_decide;
      try apply IH; by intros [= <-].
  - destruct (user_commit_action self request_id user_id action_id st)
      as [st' [r'|e]] eqn:Hout; cbn [fst].
    + destruct (commit_stores self _ _ _ _ _ _
                  (proj1 (reachable_store_wf self st Hreach)) Hout)
        as (request & user & action & routes & route
            & Hreq & _ & _ & _ & _ & -> & ->).
      intros key r. cbn [request_table with_request_table].
      rewrite lookup_insert. case_decide; [|apply IH].
      intros [= <-]. cbn. by rewrite (IH _ _ Hreq).
    + by rewrite (user_commit_action_err _ _ _ _ _ _ _ Hout).
  - rewrite add_request_data_eq. cbv zeta.
    by destruct (validate_request_data self _).
  - rewrite add_request_note_eq. cbv zeta.
    by destruct (validate_request_note self _).
  - rewrite add_request_stakeholder_eq. cbv zeta.
    by destruct (validate_request_stakeholder self _).
Qed.

(** X16. The engine never changes the status of a request: in every store
    the service can reach, every request found is 'active', also one whose
    current state has no way out. *)
Theorem reachable_request_stays_active
    (self : RequestService) (st : Store) (request_id : Z) (r : Request.t) :
  reachable self st ->
  find_one_request request_id 0 st = (st, Ok r) ->
  Request.status r = Some "active"%string.
Proof.
  intros Hreach. unfold find_one_request.
  destruct (request_repo_find_one request_id st) as [found|] eqn:Hfound; [|done].
  intros [= <-]. exact (reachable_status_active self st Hreach _ _ Hfound).
Qed.

Lemma reachable_request_stays_active_witness :
  reachable Scenario.svc (fst Scenario.approved)
  /\ find_one_request 1 0 (fst Scenario.approved)
     = (fst Scenario.approved, Ok (Request.row Scenario.approved_request))
  /\ Request.status (Request.row Scenario.approved_request) = Some "active"%string.
Proof.
  assert (find_one_request 1 0 (fst Scenario.approved)
          = (fst Scenario.approved, Ok (Request.row Scenario.approved_request))) as H
    by (vm_compute; reflexivity).
  split_and!; [exact approved_reachable | exact H |].
  exact (reachable_request_stays_active Scenario.svc _ 1 _ approved_reachable H).
Defined.
